(** * The [prometheus] Ansible callback plugin: model and properties

    A shallow embedding of [library/prometheus.py].  The plugin is an
    object whose methods Ansible calls, one per lifecycle event; every
    method mutates the object.  Here the object is a record, a method is a
    function from the record to an outcome (returned, or the exception that
    was raised) and the record as the method left it.

    What lies outside the file is kept outside the model or passed in:
    - [time.time()] is an argument of each method that reads the clock.
      A reading is a rational number: every finite float is one, and the
      difference of two readings is taken exactly, as the subtraction of
      floats is when the later reading is at most twice the earlier;
    - [C._ACTION_SETUP] and the versions shown by the [ansible] info metric
      are variables of the section;
    - the [prometheus_client] gauges are finite maps from label tuples to
      values; [labels(...)] turns each label value into a string with
      [str], as the library does, and creates the child at 0;
    - the file system: each call of [write_to_textfile] is recorded with
      its arguments, the path and the registry.  Whether that call, or the
      directory creation in [__init__], fails with an I/O error is outside
      the model: a statistics event that returns here can raise there. *)

From Stdlib Require Import ZArith QArith Ascii String Bool Lia.
From stdpp Require Import base option gmap strings list fin_maps.

Local Open Scope Z_scope.
Local Open Scope string_scope.

(** ** Python values and helpers *)

(** Exceptions the methods can raise. *)
Inductive PyExc : Type :=
| KeyError (key : string)
| AttributeError (attr : string)
| NameError (name : string)
| TypeError.

Inductive Outcome : Type :=
| Returned
| Raised (e : PyExc).

(** [str.lower()] on the characters A-Z; other characters are kept, and
    none of them lowers to a letter of [true] or [false]. *)
Definition lower_ascii (c : ascii) : ascii :=
  let n := nat_of_ascii c in
  if (Nat.leb 65 n && Nat.leb n 90)%bool then ascii_of_nat (n + 32) else c.

Fixpoint lower (s : string) : string :=
  match s with
  | EmptyString => EmptyString
  | String c r => String (lower_ascii c) (lower r)
  end.

(** [os.getenv(name, default)] over an environment. *)
Definition os_getenv (env : gmap string string) (name dflt : string) : string :=
  match env !! name with
  | Some v => v
  | None => dflt
  end.

Fixpoint has_sep (p : string) : bool :=
  match p with
  | EmptyString => false
  | String c r => (Ascii.eqb c "/"%char || has_sep r)%bool
  end.

(** [os.path.basename]: what follows the last slash. *)
Fixpoint basename (p : string) : string :=
  match p with
  | EmptyString => EmptyString
  | String _ r => if has_sep p then basename r else p
  end.

(** [int(x)] on a float: truncation towards zero. *)
Definition py_int (x : Q) : Z := Z.quot (Qnum x) (Zpos (Qden x)).

(** [str(x)] for a value that is a string or [None]. *)
Definition py_str (x : option string) : string :=
  match x with
  | Some s => s
  | None => "None"
  end.

(** ** The objects Ansible hands to the callback *)

Module Playbook.
Record t : Type := mk { _file_name : string }.
End Playbook.

Module Play.
Record t : Type := mk { get_name : string }.
End Play.

Module Task.
Record t : Type := mk { _uuid : string; action : string }.
End Task.

Module Host.
Record t : Type := mk { name : string }.
End Host.

(** A task result: [_result] is the result dictionary, of which the
    callback reads the boolean entry [changed]. *)
Module TaskResult.
Record t : Type := mk {
  _task : Task.t;
  _host : Host.t;
  _result : gmap string bool
}.
End TaskResult.

(** ** class TaskData *)

Module TaskData.
Record t : Type := mk {
  play : option string;
  action : string;
  start_time : Q
}.

(** [TaskData.__init__(play, action)], the clock read as [now]. *)
Definition __init__ (play : option string) (action : string) (now : Q) : t :=
  {| play := play; action := action; start_time := now |}.
End TaskData.

(** ** The metrics *)

(** The collector registry with the five metrics [_register_metrics]
    creates in it.  A labelled gauge maps the tuple of its label values to
    the value of that child. *)
Record Registry : Type := mkRegistry {
  _metric_info_ansible : list (string * string);
  _metric_info_playbook : list (string * string);
  _metric_playbook_duration : Z;
  _metric_tasks_duration : gmap (string * string) Z;
  _metric_tasks_status : gmap (string * string * string) Z
}.

(** [gauge.labels(k).inc(n)]: the child is created at 0 when it is new. *)
Definition labels_inc `{Countable K} (k : K) (n : Z) (g : gmap K Z) : gmap K Z :=
  <[k := default 0 (g !! k) + n]> g.

(** The value a child shows, 0 when it was never created. *)
Definition value `{Countable K} (g : gmap K Z) (k : K) : Z := default 0 (g !! k).

Definition info_playbook (fields : list (string * string)) (r : Registry) : Registry :=
  {| _metric_info_ansible := _metric_info_ansible r;
     _metric_info_playbook := fields;
     _metric_playbook_duration := _metric_playbook_duration r;
     _metric_tasks_duration := _metric_tasks_duration r;
     _metric_tasks_status := _metric_tasks_status r |}.

Definition playbook_duration_inc (n : Z) (r : Registry) : Registry :=
  {| _metric_info_ansible := _metric_info_ansible r;
     _metric_info_playbook := _metric_info_playbook r;
     _metric_playbook_duration := _metric_playbook_duration r + n;
     _metric_tasks_duration := _metric_tasks_duration r;
     _metric_tasks_status := _metric_tasks_status r |}.

Definition tasks_duration_inc (play : option string) (host : string) (n : Z)
    (r : Registry) : Registry :=
  {| _metric_info_ansible := _metric_info_ansible r;
     _metric_info_playbook := _metric_info_playbook r;
     _metric_playbook_duration := _metric_playbook_duration r;
     _metric_tasks_duration :=
       labels_inc (py_str play, host) n (_metric_tasks_duration r);
     _metric_tasks_status := _metric_tasks_status r |}.

Definition tasks_status_inc (play : option string) (host status : string) (n : Z)
    (r : Registry) : Registry :=
  {| _metric_info_ansible := _metric_info_ansible r;
     _metric_info_playbook := _metric_info_playbook r;
     _metric_playbook_duration := _metric_playbook_duration r;
     _metric_tasks_duration := _metric_tasks_duration r;
     _metric_tasks_status :=
       labels_inc (py_str play, host, status) n (_metric_tasks_status r) |}.

(** ** class CallbackModule *)

(** The attributes of the callback object.  [_registry] is [None] when
    [__init__] returned early because [prometheus_client] is missing: the
    metric attributes do not exist then.  [written] lists the calls of
    [write_to_textfile], latest first. *)
Record CallbackModule : Type := mkCallback {
  _output_file : string;
  _fail_on_change : string;
  _fail_on_ignore : string;
  _include_setup_tasks : string;
  _play_name : option string;
  _start_time : option Q;
  _task_data : gmap string TaskData.t;
  disabled : bool;
  _registry : option Registry;
  written : list (string * Registry)
}.

Definition set_play_name (n : option string) (self : CallbackModule) : CallbackModule :=
  {| _output_file := _output_file self;
     _fail_on_change := _fail_on_change self;
     _fail_on_ignore := _fail_on_ignore self;
     _include_setup_tasks := _include_setup_tasks self;
     _play_name := n;
     _start_time := _start_time self;
     _task_data := _task_data self;
     disabled := disabled self;
     _registry := _registry self;
     written := written self |}.

Definition set_start_time (t : option Q) (self : CallbackModule) : CallbackModule :=
  {| _output_file := _output_file self;
     _fail_on_change := _fail_on_change self;
     _fail_on_ignore := _fail_on_ignore self;
     _include_setup_tasks := _include_setup_tasks self;
     _play_name := _play_name self;
     _start_time := t;
     _task_data := _task_data self;
     disabled := disabled self;
     _registry := _registry self;
     written := written self |}.

Definition set_task_data (d : gmap string TaskData.t) (self : CallbackModule)
    : CallbackModule :=
  {| _output_file := _output_file self;
     _fail_on_change := _fail_on_change self;
     _fail_on_ignore := _fail_on_ignore self;
     _include_setup_tasks := _include_setup_tasks self;
     _play_name := _play_name self;
     _start_time := _start_time self;
     _task_data := d;
     disabled := disabled self;
     _registry := _registry self;
     written := written self |}.

Definition set_registry (r : Registry) (self : CallbackModule) : CallbackModule :=
  {| _output_file := _output_file self;
     _fail_on_change := _fail_on_change self;
     _fail_on_ignore := _fail_on_ignore self;
     _include_setup_tasks := _include_setup_tasks self;
     _play_name := _play_name self;
     _start_time := _start_time self;
     _task_data := _task_data self;
     disabled := disabled self;
     _registry := Some r;
     written := written self |}.

Definition add_written (path : string) (r : Registry) (self : CallbackModule)
    : CallbackModule :=
  {| _output_file := _output_file self;
     _fail_on_change := _fail_on_change self;
     _fail_on_ignore := _fail_on_ignore self;
     _include_setup_tasks := _include_setup_tasks self;
     _play_name := _play_name self;
     _start_time := _start_time self;
     _task_data := _task_data self;
     disabled := disabled self;
     _registry := _registry self;
     written := (path, r) :: written self |}.

(** The default of the option [output_file] as [DOCUMENTATION] gives it. *)
Definition documented_output_file : string :=
  "/var/lib/prometheus/node_exporter/ansible.prom".

Section Callback.

(** [ansible.constants._ACTION_SETUP]: the names of the setup action. *)
Variable _ACTION_SETUP : gset string.

(** The labels of the [ansible] info metric (the running versions). *)
Variable runtime_info : list (string * string).

(** [_register_metrics]: the metrics as they are created. *)
Definition _register_metrics : Registry :=
  {| _metric_info_ansible := runtime_info;
     _metric_info_playbook := [];
     _metric_playbook_duration := 0;
     _metric_tasks_duration := ∅;
     _metric_tasks_status := ∅ |}.

(** [CallbackModule.__init__], in the environment [env]. *)
Definition __init__ (env : gmap string string) (HAS_PROMETHEUS_CLIENT : bool)
    : CallbackModule :=
  {| _output_file :=
       os_getenv env "PROMETHEUS_OUTPUT_FILE" "/var/lib/prometheus/node_exporter";
     _fail_on_change := lower (os_getenv env "PROMETHEUS_FAIL_ON_CHANGE" "False");
     _fail_on_ignore := lower (os_getenv env "PROMETHEUS_FAIL_ON_IGNORE" "False");
     _include_setup_tasks :=
       lower (os_getenv env "PROMETHEUS_INCLUDE_SETUP_TASKS" "True");
     _play_name := None;
     _start_time := None;
     _task_data := ∅;
     disabled := negb HAS_PROMETHEUS_CLIENT;
     _registry := if HAS_PROMETHEUS_CLIENT then Some _register_metrics else None;
     written := [] |}.

(** How the methods read the three boolean options: each compares the
    lowered string with one literal. *)
Definition fail_on_change_on (self : CallbackModule) : bool :=
  String.eqb (_fail_on_change self) "true".

Definition fail_on_ignore_on (self : CallbackModule) : bool :=
  String.eqb (_fail_on_ignore self) "true".

Definition include_setup_tasks_off (self : CallbackModule) : bool :=
  String.eqb (_include_setup_tasks self) "false".

(** A method: the outcome and the object as the method left it. *)
Definition Method : Type := CallbackModule -> Outcome * CallbackModule.

Definition _start_playbook (playbook : Playbook.t) (now : Q) : Method := fun self =>
  let path := Playbook._file_name playbook in
  let name := basename path in
  match _registry self with
  | None => (Raised (AttributeError "_metric_info_playbook"), self)
  | Some r =>
      let self := set_registry (info_playbook [("name", name)] r) self in
      (Returned, set_start_time (Some now) self)
  end.

Definition _finish_playbook (now : Q) : Method := fun self =>
  let finish_time := now in
  match _registry self with
  | None => (Raised (AttributeError "_metric_playbook_duration"), self)
  | Some r =>
      match _start_time self with
      | None => (Raised TypeError, self)
      | Some start =>
          (Returned,
           set_registry (playbook_duration_inc (py_int (finish_time - start)) r) self)
      end
  end.

Definition _start_task (task : Task.t) (now : Q) : Method := fun self =>
  let task_uuid := Task._uuid task in
  match _task_data self !! task_uuid with
  | Some _ => (Returned, self)
  | None =>
      (Returned,
       set_task_data
         (<[task_uuid := TaskData.__init__ (_play_name self) (Task.action task) now]>
            (_task_data self))
         self)
  end.

Definition _finish_task (status : string) (result : TaskResult.t) (now : Q)
    : Method := fun self =>
  let task_uuid := Task._uuid (TaskResult._task result) in
  match _task_data self !! task_uuid with
  | None => (Raised (KeyError task_uuid), self)
  | Some task_data =>
      if bool_decide (TaskData.action task_data ∈ _ACTION_SETUP)
         && include_setup_tasks_off self
      then (Returned, self)
      else
        let changed := default false (TaskResult._result result !! "changed") in
        let host := Host.name (TaskResult._host result) in
        let play := TaskData.play task_data in
        let status :=
          if fail_on_change_on self && String.eqb status "ok" && changed
          then "failed" else status in
        match _registry self with
        | None => (Raised (AttributeError "_metric_tasks_status"), self)
        | Some r =>
            let r := tasks_status_inc play host status 1 r in
            let r := if changed then tasks_status_inc play host "changed" 1 r else r in
            let finish_time := now in
            let r :=
              tasks_duration_inc play host
                (py_int (finish_time - TaskData.start_time task_data)) r in
            (Returned, set_registry r self)
        end
  end.

Definition write_metrics_textfile : Method := fun self =>
  match _registry self with
  | None => (Raised (NameError "write_to_textfile"), self)
  | Some r => (Returned, add_written (_output_file self) r self)
  end.

(** ** The event methods *)

Definition v2_playbook_on_start (playbook : Playbook.t) (now : Q) : Method :=
  _start_playbook playbook now.

Definition v2_playbook_on_play_start (play : Play.t) : Method := fun self =>
  (Returned, set_play_name (Some (Play.get_name play)) self).

Definition v2_runner_on_no_hosts (task : Task.t) (now : Q) : Method :=
  _start_task task now.

Definition v2_playbook_on_task_start (task : Task.t) (is_conditional : bool) (now : Q)
    : Method :=
  _start_task task now.

Definition v2_playbook_on_cleanup_task_start (task : Task.t) (now : Q) : Method :=
  _start_task task now.

Definition v2_playbook_on_handler_task_start (task : Task.t) (now : Q) : Method :=
  _start_task task now.

Definition v2_runner_on_failed (result : TaskResult.t) (ignore_errors : bool) (now : Q)
    : Method := fun self =>
  if ignore_errors && negb (fail_on_ignore_on self)
  then _finish_task "ok" result now self
  else _finish_task "failed" result now self.

Definition v2_runner_on_ok (result : TaskResult.t) (now : Q) : Method :=
  _finish_task "ok" result now.

Definition v2_runner_on_skipped (result : TaskResult.t) (now : Q) : Method :=
  _finish_task "skipped" result now.

(** The second method runs only when the first returned. *)
Definition and_then (f g : Method) : Method := fun self =>
  match f self with
  | (Returned, self') => g self'
  | (Raised e, self') => (Raised e, self')
  end.

Definition v2_playbook_on_stats (now : Q) : Method :=
  and_then (_finish_playbook now) write_metrics_textfile.

End Callback.

(** ** The events and their dispatch *)

(** One constructor per event method of the callback. *)
Inductive Event : Type :=
| PlaybookStart (playbook : Playbook.t)
| PlayStart (play : Play.t)
| NoHosts (task : Task.t)
| TaskStart (task : Task.t) (is_conditional : bool)
| CleanupTaskStart (task : Task.t)
| HandlerTaskStart (task : Task.t)
| RunnerFailed (result : TaskResult.t) (ignore_errors : bool)
| RunnerOk (result : TaskResult.t)
| RunnerSkipped (result : TaskResult.t)
| Stats.

(** The method Ansible calls for an event; [now] is what the clock shows
    during the call. *)
Definition handle (A : gset string) (e : Event) (now : Q) : Method :=
  match e with
  | PlaybookStart playbook => v2_playbook_on_start playbook now
  | PlayStart play => v2_playbook_on_play_start play
  | NoHosts task => v2_runner_on_no_hosts task now
  | TaskStart task c => v2_playbook_on_task_start task c now
  | CleanupTaskStart task => v2_playbook_on_cleanup_task_start task now
  | HandlerTaskStart task => v2_playbook_on_handler_task_start task now
  | RunnerFailed result ignore_errors => v2_runner_on_failed A result ignore_errors now
  | RunnerOk result => v2_runner_on_ok A result now
  | RunnerSkipped result => v2_runner_on_skipped A result now
  | Stats => v2_playbook_on_stats now
  end.

(** The task result an event carries, if it is a result event. *)
Definition result_of (e : Event) : option TaskResult.t :=
  match e with
  | RunnerFailed result _ | RunnerOk result | RunnerSkipped result => Some result
  | _ => None
  end.

(** A run: the events in order, each with its clock reading, up to the
    first exception. *)
Fixpoint run (A : gset string) (events : list (Event * Q)) : Method := fun self =>
  match events with
  | [] => (Returned, self)
  | (e, now) :: rest => and_then (handle A e now) (run A rest) self
  end.

(** ** Reading the gauges *)

Definition tasks_status_value (self : CallbackModule) (play host status : string) : Z :=
  match _registry self with
  | Some r => value (_metric_tasks_status r) (play, host, status)
  | None => 0
  end.

Definition tasks_duration_value (self : CallbackModule) (play host : string) : Z :=
  match _registry self with
  | Some r => value (_metric_tasks_duration r) (play, host)
  | None => 0
  end.

(** ** Data for the examples *)

Definition setup_actions : gset string :=
  {[ "setup"; "ansible.builtin.setup"; "ansible.legacy.setup" ]}.

Definition versions : list (string * string) :=
  [("version", "2.9.0"); ("python_version", "3.8.2")].

Definition site_yml : Playbook.t := Playbook.mk "/srv/playbooks/site.yml".
Definition site : Play.t := Play.mk "site".
Definition t1 : Task.t := Task.mk "t1" "command".
Definition t_setup : Task.t := Task.mk "t0" "setup".
Definition h1 : Host.t := Host.mk "h1".

Definition result_t1 (changed : bool) : TaskResult.t :=
  TaskResult.mk t1 h1 {[ "changed" := changed ]}.

Definition result_setup : TaskResult.t := TaskResult.mk t_setup h1 ∅.

Definition result_unknown : TaskResult.t :=
  TaskResult.mk (Task.mk "t9" "command") h1 ∅.

(** A result for [t1] whose dictionary has no entry [changed]. *)
Definition result_t1_plain : TaskResult.t := TaskResult.mk t1 h1 ∅.

(** A second task, and its unchanged result for [h1]. *)
Definition t2 : Task.t := Task.mk "t2" "command".


(** A playbook, a play and the task [t1] started. *)
Definition started : list (Event * Q) :=
  [(PlaybookStart site_yml, 100%Q); (PlayStart site, 100%Q); (TaskStart t1 false, 101%Q)].

(** The same with the setup task and no other. *)
Definition setup_started : list (Event * Q) :=
  [(PlaybookStart site_yml, 100%Q); (PlayStart site, 100%Q);
   (TaskStart t_setup false, 101%Q)].


Definition env_fail_on_change : gmap string string :=
  {[ "PROMETHEUS_FAIL_ON_CHANGE" := "True" ]}.

Definition env_include_setup (v : string) : gmap string string :=
  {[ "PROMETHEUS_INCLUDE_SETUP_TASKS" := v ]}.

(** The callback after [events], started in the environment [env]. *)
Definition after (env : gmap string string) (events : list (Event * Q)) : CallbackModule :=
  snd (run setup_actions events (__init__ versions env true)).

(** The local variable [changed] of [_finish_task]. *)
Definition changed_of (result : TaskResult.t) : bool :=
  default false (TaskResult._result result !! "changed").

(** The local variable [status] of [_finish_task] when the gauge is
    incremented. *)
Definition reclassified (self : CallbackModule) (status : string) (changed : bool)
    : string :=
  if fail_on_change_on self && String.eqb status "ok" && changed
  then "failed" else status.

(** The test that makes [_finish_task] return early. *)
Definition setup_excluded (A : gset string) (self : CallbackModule) (td : TaskData.t)
    : bool :=
  bool_decide (TaskData.action td ∈ A) && include_setup_tasks_off self.

(** The registry [_finish_task] leaves when it counts the result. *)
Definition counted (self : CallbackModule) (td : TaskData.t) (status : string)
    (result : TaskResult.t) (now : Q) (r : Registry) : Registry :=
  let play := TaskData.play td in
  let host := Host.name (TaskResult._host result) in
  let r := tasks_status_inc play host
             (reclassified self status (changed_of result)) 1 r in
  let r := if changed_of result then tasks_status_inc play host "changed" 1 r else r in
  tasks_duration_inc play host (py_int (now - TaskData.start_time td)) r.

(** The statuses the result methods pass to [_finish_task]. *)
Definition raw_statuses : list string := ["ok"; "failed"; "skipped"].

(** A string an option accepts as a boolean: [true] or [false] in any
    case. *)
Definition valid_boolean (s : string) : Prop :=
  lower s = "true" ∨ lower s = "false".

(** The status label a result event is counted under, in closed form:
    what [v2_runner_on_failed], [v2_runner_on_ok] and
    [v2_runner_on_skipped] pass to [_finish_task], after the
    [fail_on_change] test made there. *)
Definition final_status (e : Event) (self : CallbackModule) : option string :=
  match e with
  | RunnerFailed result ignore_errors =>
      Some (if ignore_errors && negb (fail_on_ignore_on self)
            then (if fail_on_change_on self && changed_of result then "failed" else "ok")
            else "failed")
  | RunnerOk result =>
      Some (if fail_on_change_on self && changed_of result then "failed" else "ok")
  | RunnerSkipped _ => Some "skipped"
  | _ => None
  end.

(** The four attributes read from the environment. *)
Definition configuration (self : CallbackModule) : string * string * string * string :=
  (_output_file self, _fail_on_change self, _fail_on_ignore self,
   _include_setup_tasks self).

Definition is_stats (e : Event) : bool :=
  match e with Stats => true | _ => false end.

Definition is_playbook_start (e : Event) : bool :=
  match e with PlaybookStart _ => true | _ => false end.


(** The seconds the results of a task started at [start] add when they
    arrive at the clock readings [nows]. *)
Fixpoint total_seconds (start : Q) (nows : list Q) : Z :=
  match nows with
  | [] => 0
  | now :: rest => py_int (now - start) + total_seconds start rest
  end.

(** * Properties *)

(** ** Gauges *)

Section Gauge.
Context `{Countable K}.
Implicit Types (g : gmap K Z) (k : K) (n : Z).

Lemma value_labels_inc_eq g k n : value (labels_inc k n g) k = value g k + n.
Proof. unfold value, labels_inc. by rewrite lookup_insert_eq. Qed.

Lemma value_labels_inc_ne g k k' n : k ≠ k' → value (labels_inc k n g) k' = value g k'.
Proof. intros Hne. unfold value, labels_inc. by rewrite lookup_insert_ne. Qed.

End Gauge.

Lemma py_int_nonneg (a b : Q) : (a <= b)%Q → 0 <= py_int (b - a).
Proof.
  intros Hle. unfold py_int. apply Z.quot_pos; [|lia].
  unfold Qle in Hle. unfold Qminus, Qplus, Qopp. simpl. lia.
Qed.

(** ** What [_finish_task] does, case by case *)

Lemma _finish_task_unknown A status result now self :
  _task_data self !! Task._uuid (TaskResult._task result) = None →
  _finish_task A status result now self
  = (Raised (KeyError (Task._uuid (TaskResult._task result))), self).
Proof. intros Hnone. unfold _finish_task. by rewrite Hnone. Qed.

Lemma _finish_task_excluded A status result now self td :
  _task_data self !! Task._uuid (TaskResult._task result) = Some td →
  setup_excluded A self td = true →
  _finish_task A status result now self = (Returned, self).
Proof.
  intros Htd Hex. unfold _finish_task, setup_excluded in *. by rewrite Htd, Hex.
Qed.

Lemma _finish_task_counted A status result now self td r :
  _task_data self !! Task._uuid (TaskResult._task result) = Some td →
  setup_excluded A self td = false →
  _registry self = Some r →
  _finish_task A status result now self
  = (Returned, set_registry (counted self td status result now r) self).
Proof.
  intros Htd Hex Hr. unfold _finish_task, setup_excluded in *.
  by rewrite Htd, Hex, Hr.
Qed.

(** The status gauge after a counted result, at the child of the final
    status and at the child [changed]. *)
Lemma counted_status_value self td status result now r st :
  value (_metric_tasks_status (counted self td status result now r))
        (py_str (TaskData.play td), Host.name (TaskResult._host result), st)
  = value (_metric_tasks_status r)
          (py_str (TaskData.play td), Host.name (TaskResult._host result), st)
    + (if String.eqb (reclassified self status (changed_of result)) st then 1 else 0)
    + (if changed_of result && String.eqb "changed" st then 1 else 0).
Proof.
  unfold counted. cbn [tasks_duration_inc _metric_tasks_status].
  set (fin := reclassified self status (changed_of result)).
  assert (Hstep : ∀ r0 s0,
    value (_metric_tasks_status
             (tasks_status_inc (TaskData.play td)
                (Host.name (TaskResult._host result)) s0 1 r0))
          (py_str (TaskData.play td), Host.name (TaskResult._host result), st)
    = value (_metric_tasks_status r0)
            (py_str (TaskData.play td), Host.name (TaskResult._host result), st)
      + (if String.eqb s0 st then 1 else 0)).
  { intros r0 s0. cbn [tasks_status_inc _metric_tasks_status].
    destruct (String.eqb_spec s0 st) as [->|Hne].
    - by rewrite value_labels_inc_eq.
    - rewrite value_labels_inc_ne; [lia | congruence]. }
  destruct (changed_of result); cbn [andb].
  - by rewrite !Hstep.
  - rewrite Hstep. lia.
Qed.

Lemma counted_status_other self td status result now r p h st :
  (p, h) ≠ (py_str (TaskData.play td), Host.name (TaskResult._host result)) →
  value (_metric_tasks_status (counted self td status result now r)) (p, h, st)
  = value (_metric_tasks_status r) (p, h, st).
Proof.
  intros Hne. unfold counted. cbn [tasks_duration_inc _metric_tasks_status].
  destruct (changed_of result); cbn [tasks_status_inc _metric_tasks_status];
    rewrite ?value_labels_inc_ne; try done; congruence.
Qed.

Lemma counted_duration_value self td status result now r :
  value (_metric_tasks_duration (counted self td status result now r))
        (py_str (TaskData.play td), Host.name (TaskResult._host result))
  = value (_metric_tasks_duration r)
          (py_str (TaskData.play td), Host.name (TaskResult._host result))
    + py_int (now - TaskData.start_time td).
Proof.
  unfold counted. cbn [tasks_duration_inc _metric_tasks_duration].
  rewrite value_labels_inc_eq. by destruct (changed_of result).
Qed.

Lemma counted_duration_other self td status result now r p h :
  (p, h) ≠ (py_str (TaskData.play td), Host.name (TaskResult._host result)) →
  value (_metric_tasks_duration (counted self td status result now r)) (p, h)
  = value (_metric_tasks_duration r) (p, h).
Proof.
  intros Hne. unfold counted. cbn [tasks_duration_inc _metric_tasks_duration].
  rewrite value_labels_inc_ne by done. by destruct (changed_of result).
Qed.

(** ** The event methods in terms of [_start_task] and [_finish_task] *)

Lemma handle_result A e now self result :
  result_of e = Some result →
  ∃ status, status ∈ raw_statuses ∧ handle A e now self = _finish_task A status result now self.
Proof.
  unfold raw_statuses.
  destruct e; cbn [result_of]; intros Heq; try discriminate; simplify_eq; cbn [handle].
  - unfold v2_runner_on_failed.
    destruct (ignore_errors && negb (fail_on_ignore_on self)).
    + exists "ok". split; [set_solver | done].
    + exists "failed". split; [set_solver | done].
  - exists "ok". split; [set_solver | done].
  - exists "skipped". split; [set_solver | done].
Qed.

Lemma handle_no_result_registry A e now self :
  result_of e = None → e ≠ Stats → (∀ pb, e ≠ PlaybookStart pb) →
  _registry (snd (handle A e now self)) = _registry self.
Proof.
  intros Hres Hstats Hstart.
  destruct e as [pb|play|task|task c|task|task|res i|res|res|];
    cbn [handle result_of] in *; try discriminate; try done.
  - by destruct (Hstart pb).
  - unfold v2_runner_on_no_hosts, _start_task.
    by destruct (_task_data self !! Task._uuid task).
  - unfold v2_playbook_on_task_start, _start_task.
    by destruct (_task_data self !! Task._uuid task).
  - unfold v2_playbook_on_cleanup_task_start, _start_task.
    by destruct (_task_data self !! Task._uuid task).
  - unfold v2_playbook_on_handler_task_start, _start_task.
    by destruct (_task_data self !! Task._uuid task).
Qed.

(** ** Task registry *)

(** C4: starting a task whose id is already registered is a no-op: the
    callback is left as it was, so the registry still holds one entry for
    the id, with the play, action and start time recorded first, and this
    is so for each of the four methods that start a task. *)
Theorem start_task_idempotent (A : gset string) (task : Task.t) (now : Q)
    (self : CallbackModule) (td : TaskData.t) :
  _task_data self !! Task._uuid task = Some td →
  _start_task task now self = (Returned, self)
  ∧ _task_data (snd (_start_task task now self)) !! Task._uuid task = Some td
  ∧ size (_task_data (snd (_start_task task now self))) = size (_task_data self)
  ∧ ∀ e, e ∈ [NoHosts task; TaskStart task true; TaskStart task false;
              CleanupTaskStart task; HandlerTaskStart task] →
         handle A e now self = (Returned, self).
Proof.
  intros Htd.
  assert (Hnoop : _start_task task now self = (Returned, self)).
  { unfold _start_task. by rewrite Htd. }
  rewrite Hnoop. cbn [snd]. repeat split; try done.
  intros e He. repeat (apply elem_of_cons in He as [->|He]; [exact Hnoop|]).
  by apply elem_of_nil in He.
Qed.

(** The first start registers the task with the current play name, the
    task's action and the clock reading; a later start of the same id, at
    another time and with another action, changes nothing. *)
Lemma start_task_twice (uuid a1 a2 : string) (now1 now2 : Q) (self : CallbackModule) :
  _task_data self !! uuid = None →
  let self1 := snd (_start_task (Task.mk uuid a1) now1 self) in
  _task_data self1 !! uuid = Some (TaskData.mk (_play_name self) a1 now1)
  ∧ _start_task (Task.mk uuid a2) now2 self1 = (Returned, self1).
Proof.
  intros Hnone. unfold _start_task. cbn [Task._uuid Task.action].
  rewrite Hnone. cbn [snd set_task_data _task_data].
  rewrite lookup_insert_eq. done.
Qed.

(** C5: a task-result event for an id that no start registered raises
    [KeyError] for that id, whatever the result method, and the callback
    is left exactly as it was: no gauge is touched. *)
Theorem unknown_task_raises (A : gset string) (e : Event) (result : TaskResult.t)
    (now : Q) (self : CallbackModule) :
  result_of e = Some result →
  _task_data self !! Task._uuid (TaskResult._task result) = None →
  handle A e now self
  = (Raised (KeyError (Task._uuid (TaskResult._task result))), self).
Proof.
  intros He Hnone. destruct (handle_result A e now self result He) as (st & _ & ->).
  by apply _finish_task_unknown.
Qed.

(** C6: a task-result event for a task whose action is a setup action,
    when [_include_setup_tasks] is [false], returns and leaves the callback
    exactly as it was: status gauge, changed child and duration gauge
    included. *)
Theorem setup_task_dropped (A : gset string) (e : Event) (result : TaskResult.t)
    (now : Q) (self : CallbackModule) (td : TaskData.t) :
  result_of e = Some result →
  _task_data self !! Task._uuid (TaskResult._task result) = Some td →
  TaskData.action td ∈ A →
  _include_setup_tasks self = "false" →
  handle A e now self = (Returned, self).
Proof.
  intros He Htd Hin Hoff. destruct (handle_result A e now self result He) as (st & _ & ->).
  apply (_finish_task_excluded _ _ _ _ _ td Htd).
  unfold setup_excluded, include_setup_tasks_off. rewrite Hoff.
  by rewrite bool_decide_true.
Qed.

(** ** Configuration *)

(** C3: with no [PROMETHEUS_OUTPUT_FILE] in the environment the callback
    writes to [/var/lib/prometheus/node_exporter], which is not the
    default the documentation of the option gives. *)
Theorem default_output_file (info : list (string * string)) (b : bool) :
  _output_file (__init__ info ∅ b) = "/var/lib/prometheus/node_exporter"
  ∧ _output_file (__init__ info ∅ b) ≠ documented_output_file
  ∧ fst <$> written (after ∅ [(PlaybookStart site_yml, 100%Q); (Stats, 130%Q)])
    = ["/var/lib/prometheus/node_exporter"].
Proof.
  split; [reflexivity | split].
  - discriminate.
  - vm_compute. reflexivity.
Qed.

(** C7: an option string that is neither [true] nor [false] (in any case)
    raises nothing and is read as the default of its option: off for
    [fail_on_change] and [fail_on_ignore], and on for
    [include_setup_tasks], whose only recognised value is [false]. *)
Theorem invalid_boolean_is_default (info : list (string * string))
    (env : gmap string string) (b : bool) (s : string) :
  ¬ valid_boolean s →
  let unset name := __init__ info (delete name env) b in
  let given name := __init__ info (<[name := s]> env) b in
  fail_on_change_on (given "PROMETHEUS_FAIL_ON_CHANGE") = false
  ∧ fail_on_change_on (unset "PROMETHEUS_FAIL_ON_CHANGE") = false
  ∧ fail_on_ignore_on (given "PROMETHEUS_FAIL_ON_IGNORE") = false
  ∧ fail_on_ignore_on (unset "PROMETHEUS_FAIL_ON_IGNORE") = false
  ∧ include_setup_tasks_off (given "PROMETHEUS_INCLUDE_SETUP_TASKS") = false
  ∧ include_setup_tasks_off (unset "PROMETHEUS_INCLUDE_SETUP_TASKS") = false.
Proof.
  intros Hinv unset given. unfold valid_boolean in Hinv.
  assert (Ht : String.eqb (lower s) "true" = false)
    by (apply String.eqb_neq; tauto).
  assert (Hf : String.eqb (lower s) "false" = false)
    by (apply String.eqb_neq; tauto).
  subst unset given.
  unfold fail_on_change_on, fail_on_ignore_on, include_setup_tasks_off, __init__, os_getenv.
  cbn [_fail_on_change _fail_on_ignore _include_setup_tasks].
  rewrite !lookup_insert_eq, !lookup_delete_eq. by rewrite Ht, Hf.
Qed.

(** ** Classification and counting *)

Lemma reclassified_raw self status changed :
  status ∈ raw_statuses → reclassified self status changed ∈ raw_statuses.
Proof.
  intros Hin. unfold reclassified.
  destruct (fail_on_change_on self && String.eqb status "ok" && changed); [|done].
  unfold raw_statuses. apply elem_of_cons. right. apply elem_of_cons. by left.
Qed.

Lemma raw_not_changed status : status ∈ raw_statuses → String.eqb status "changed" = false.
Proof.
  unfold raw_statuses. intros Hin. apply String.eqb_neq. intros ->.
  rewrite !elem_of_cons, elem_of_nil in Hin.
  destruct Hin as [Heq|[Heq|[Heq|[]]]]; discriminate Heq.
Qed.

(** A counted result: the child of the final status and the child
    [changed] after it. *)
Lemma finish_task_status_values A status result now self td r :
  _task_data self !! Task._uuid (TaskResult._task result) = Some td →
  setup_excluded A self td = false →
  _registry self = Some r →
  status ∈ raw_statuses →
  let play := py_str (TaskData.play td) in
  let host := Host.name (TaskResult._host result) in
  let final := reclassified self status (changed_of result) in
  ∃ self', _finish_task A status result now self = (Returned, self')
    ∧ tasks_status_value self' play host final
      = tasks_status_value self play host final + 1
    ∧ tasks_status_value self' play host "changed"
      = tasks_status_value self play host "changed"
        + (if changed_of result then 1 else 0)
    ∧ ∀ st, st ≠ final → st ≠ "changed" →
        tasks_status_value self' play host st = tasks_status_value self play host st.
Proof.
  intros Htd Hex Hr Hraw play host final.
  eexists. split; [by apply _finish_task_counted|].
  unfold tasks_status_value. rewrite Hr. cbn [set_registry _registry].
  pose proof (raw_not_changed final (reclassified_raw self status _ Hraw)) as Hnc.
  subst play host. repeat split.
  - rewrite counted_status_value. fold final. rewrite String.eqb_refl.
    rewrite String.eqb_sym, Hnc, andb_false_r. lia.
  - rewrite counted_status_value. fold final. rewrite Hnc.
    rewrite String.eqb_refl, andb_true_r. lia.
  - intros st Hfin Hch. rewrite counted_status_value. fold final.
    apply String.eqb_neq in Hfin, Hch.
    rewrite String.eqb_sym, Hfin, String.eqb_sym, Hch, andb_false_r. lia.
Qed.

(** C1: a failed result with [ignore_errors] set, [fail_on_ignore] off and
    [changed] true is first turned into [ok] by [v2_runner_on_failed], and
    [_finish_task] then applies the [fail_on_change] test to that [ok]:
    with [fail_on_change] on the result is counted as [failed] and the
    child [ok] is left alone; with it off the result is counted as [ok]. *)
Theorem ignored_failure_then_fail_on_change (A : gset string) (result : TaskResult.t)
    (now : Q) (self : CallbackModule) (td : TaskData.t) (r : Registry) :
  _task_data self !! Task._uuid (TaskResult._task result) = Some td →
  setup_excluded A self td = false →
  _registry self = Some r →
  fail_on_ignore_on self = false →
  changed_of result = true →
  let play := py_str (TaskData.play td) in
  let host := Host.name (TaskResult._host result) in
  let final := if fail_on_change_on self then "failed" else "ok" in
  let other := if fail_on_change_on self then "ok" else "failed" in
  ∃ self', v2_runner_on_failed A result true now self = (Returned, self')
    ∧ tasks_status_value self' play host final
      = tasks_status_value self play host final + 1
    ∧ tasks_status_value self' play host other
      = tasks_status_value self play host other.
Proof.
  intros Htd Hex Hr Hign Hch play host final other.
  unfold v2_runner_on_failed. rewrite Hign. cbn [andb negb].
  assert (Hok : "ok" ∈ raw_statuses) by (apply elem_of_cons; by left).
  destruct (finish_task_status_values A "ok" result now self td r Htd Hex Hr Hok)
    as (self' & Hrun & Hfin & _ & Hrest).
  exists self'. split; [exact Hrun|].
  unfold reclassified in Hfin, Hrest. rewrite Hch in Hfin, Hrest.
  cbn [String.eqb Ascii.eqb Bool.eqb andb] in Hfin, Hrest.
  rewrite andb_true_r in Hfin, Hrest.
  subst play host final other.
  destruct (fail_on_change_on self); (split; [exact Hfin | by apply Hrest]).
Qed.

(** C2: a counted result whose [changed] entry is true increments the
    child [changed] of its (play, host) by one besides the child of the
    final status, whatever that status is; it is [failed], and [changed]
    still counts, both for a failure that is not ignored and for an [ok]
    result under [fail_on_change]. *)
Theorem changed_counted_besides_status (A : gset string) (e : Event)
    (result : TaskResult.t) (now : Q) (self : CallbackModule) (td : TaskData.t)
    (r : Registry) :
  result_of e = Some result →
  _task_data self !! Task._uuid (TaskResult._task result) = Some td →
  setup_excluded A self td = false →
  _registry self = Some r →
  changed_of result = true →
  let play := py_str (TaskData.play td) in
  let host := Host.name (TaskResult._host result) in
  ∃ self' final, handle A e now self = (Returned, self')
    ∧ final ∈ raw_statuses
    ∧ tasks_status_value self' play host final
      = tasks_status_value self play host final + 1
    ∧ tasks_status_value self' play host "changed"
      = tasks_status_value self play host "changed" + 1
    ∧ (e = RunnerFailed result false → final = "failed")
    ∧ (e = RunnerOk result → fail_on_change_on self = true → final = "failed").
Proof.
  intros He Htd Hex Hr Hch play host.
  assert (Hgen : ∀ status, status ∈ raw_statuses →
    handle A e now self = _finish_task A status result now self →
    ∃ self', handle A e now self = (Returned, self')
      ∧ reclassified self status true ∈ raw_statuses
      ∧ tasks_status_value self' play host (reclassified self status true)
        = tasks_status_value self play host (reclassified self status true) + 1
      ∧ tasks_status_value self' play host "changed"
        = tasks_status_value self play host "changed" + 1).
  { intros status Hraw Heq.
    destruct (finish_task_status_values A status result now self td r Htd Hex Hr Hraw)
      as (self' & Hrun & Hfin & Hchg & _).
    rewrite Hch in Hfin, Hchg. exists self'.
    rewrite Heq. repeat split; try done. by apply reclassified_raw. }
  destruct e as [| | | | | |res i|res|res|]; cbn [result_of] in He; try discriminate;
    injection He as ->.
  - cbn [handle] in *. unfold v2_runner_on_failed in *.
    destruct i; cbn [andb] in *.
    + destruct (negb (fail_on_ignore_on self)).
      * destruct (Hgen "ok") as (self' & ? & ? & ? & ?);
          [apply elem_of_cons; by left | done |].
        exists self', (reclassified self "ok" true). repeat split; try done.
      * destruct (Hgen "failed") as (self' & ? & ? & ? & ?);
          [apply elem_of_cons; right; apply elem_of_cons; by left | done |].
        exists self', (reclassified self "failed" true). repeat split; try done.
    + destruct (Hgen "failed") as (self' & ? & ? & ? & ?);
        [apply elem_of_cons; right; apply elem_of_cons; by left | done |].
      exists self', (reclassified self "failed" true). repeat split; try done.
      intros _. unfold reclassified. cbn. by rewrite andb_false_r.
  - destruct (Hgen "ok") as (self' & ? & ? & ? & ?);
      [apply elem_of_cons; by left | done |].
    exists self', (reclassified self "ok" true). repeat split; try done.
    intros _ Hon. unfold reclassified. by rewrite Hon.
  - destruct (Hgen "skipped") as (self' & ? & ? & ? & ?);
      [unfold raw_statuses; set_solver | done |].
    exists self', (reclassified self "skipped" true). repeat split; try done.
Qed.

(** ** Labels and durations *)





(** C10: a counted result adds [int(finish_time - start_time)] to the
    duration child of its (play, host) and leaves every other child as it
    was; the amount is not negative, so the child does not decrease, when
    the clock did not go back between the start of the task and its
    result; and no event other than a task result changes a duration
    child. *)
Theorem task_duration_accumulates (A : gset string) (e : Event) (result : TaskResult.t)
    (now : Q) (self : CallbackModule) (td : TaskData.t) (r : Registry) :
  result_of e = Some result →
  _task_data self !! Task._uuid (TaskResult._task result) = Some td →
  setup_excluded A self td = false →
  _registry self = Some r →
  let play := py_str (TaskData.play td) in
  let host := Host.name (TaskResult._host result) in
  ∃ self', handle A e now self = (Returned, self')
    ∧ tasks_duration_value self' play host
      = tasks_duration_value self play host + py_int (now - TaskData.start_time td)
    ∧ (∀ p h, (p, h) ≠ (play, host) →
         tasks_duration_value self' p h = tasks_duration_value self p h)
    ∧ ((TaskData.start_time td <= now)%Q →
         (tasks_duration_value self play host <= tasks_duration_value self' play host)%Z)
    ∧ (∀ e' now' p h, result_of e' = None →
         tasks_duration_value (snd (handle A e' now' self)) p h
         = tasks_duration_value self p h).
Proof.
  intros He Htd Hex Hr play host.
  destruct (handle_result A e now self result He) as (status & _ & ->).
  rewrite (_finish_task_counted A status result now self td r Htd Hex Hr).
  eexists. split; [reflexivity|].
  unfold tasks_duration_value at 1 2 3 4 5 6. cbn [set_registry _registry]. rewrite Hr.
  subst play host. rewrite counted_duration_value.
  split; [done|]. split; [intros p h Hne; by apply counted_duration_other|].
  split; [intros Hle; pose proof (py_int_nonneg _ _ Hle); lia|].
  intros e' now' p h Hres. unfold tasks_duration_value.
  destruct e' as [pb|pl|task|task c|task|task|res i|res|res|];
    cbn [result_of] in Hres; try discriminate; cbn [handle].
  - unfold v2_playbook_on_start, _start_playbook. by rewrite Hr.
  - done.
  - unfold v2_runner_on_no_hosts, _start_task.
    by destruct (_task_data self !! Task._uuid task).
  - unfold v2_playbook_on_task_start, _start_task.
    by destruct (_task_data self !! Task._uuid task).
  - unfold v2_playbook_on_cleanup_task_start, _start_task.
    by destruct (_task_data self !! Task._uuid task).
  - unfold v2_playbook_on_handler_task_start, _start_task.
    by destruct (_task_data self !! Task._uuid task).
  - unfold v2_playbook_on_stats, and_then, _finish_playbook, write_metrics_textfile.
    rewrite Hr. destruct (_start_time self); [|by cbn; rewrite Hr].
    by cbn.
Qed.

(** ** After the statistics event *)

Lemma stats_returned now self self' :
  v2_playbook_on_stats now self = (Returned, self') →
  is_Some (_registry self') ∧ is_Some (_start_time self')
  ∧ _task_data self' = _task_data self ∧ _play_name self' = _play_name self.
Proof.
  unfold v2_playbook_on_stats, and_then, _finish_playbook, write_metrics_textfile.
  destruct (_registry self) as [r|] eqn:Hr; [|discriminate].
  destruct (_start_time self) as [t|] eqn:Ht; [|discriminate].
  cbn [set_registry _registry]. intros [= <-].
  cbn [add_written set_registry _registry _start_time _task_data _play_name].
  rewrite Ht. eauto.
Qed.

(** C8: the callback keeps no finished state.  After
    [v2_playbook_on_stats] has returned, every further event is handled as
    during the run: it returns, except a task result for an id that was
    never started (the [KeyError] of any such result); a play start sets
    the play name, a task start registers the task, and a second
    statistics event writes the text file again. *)
Theorem events_after_stats_are_processed (A : gset string) (now : Q)
    (self self' : CallbackModule) :
  v2_playbook_on_stats now self = (Returned, self') →
  (∀ e now', fst (handle A e now' self') = Returned
     ∨ ∃ result, result_of e = Some result
         ∧ _task_data self' !! Task._uuid (TaskResult._task result) = None)
  ∧ (∀ play now',
       handle A (PlayStart play) now' self'
       = (Returned, set_play_name (Some (Play.get_name play)) self'))
  ∧ (∀ task c now', _task_data self' !! Task._uuid task = None →
       _task_data (snd (handle A (TaskStart task c) now' self')) !! Task._uuid task
       = Some (TaskData.mk (_play_name self') (Task.action task) now'))
  ∧ (∀ now', ∃ self'', handle A Stats now' self' = (Returned, self'')
       ∧ length (written self'') = S (length (written self'))).
Proof.
  intros Hstats.
  destruct (stats_returned _ _ _ Hstats) as ([r Hr] & [t Ht] & _ & _).
  assert (Hagain : ∀ now', ∃ self'', handle A Stats now' self' = (Returned, self'')
                     ∧ length (written self'') = S (length (written self'))).
  { intros now'. cbn [handle].
    unfold v2_playbook_on_stats, and_then, _finish_playbook, write_metrics_textfile.
    rewrite Hr, Ht. cbn [set_registry _registry]. eexists. split; [reflexivity|]. done. }
  repeat split.
  - intros e now'.
    destruct (result_of e) as [res|] eqn:He.
    { destruct (handle_result A e now' self' res He) as (st & _ & ->).
      destruct (_task_data self' !! Task._uuid (TaskResult._task res)) as [td|] eqn:Htd;
        [left | right; by exists res].
      destruct (setup_excluded A self' td) eqn:Hex.
      - by rewrite (_finish_task_excluded _ _ _ _ _ td Htd Hex).
      - by rewrite (_finish_task_counted _ _ _ _ _ td r Htd Hex Hr). }
    left.
    destruct e as [pb|pl|task|task c|task|task|res i|res|res|];
      cbn [result_of] in He; try discriminate; cbn [handle].
    + unfold v2_playbook_on_start, _start_playbook. by rewrite Hr.
    + done.
    + unfold v2_runner_on_no_hosts, _start_task.
      by destruct (_task_data self' !! Task._uuid task).
    + unfold v2_playbook_on_task_start, _start_task.
      by destruct (_task_data self' !! Task._uuid task).
    + unfold v2_playbook_on_cleanup_task_start, _start_task.
      by destruct (_task_data self' !! Task._uuid task).
    + unfold v2_playbook_on_handler_task_start, _start_task.
      by destruct (_task_data self' !! Task._uuid task).
    + destruct (Hagain now') as (s'' & Hs & _). cbn [handle] in Hs. by rewrite Hs.
  - intros task c now' Hnone. cbn [handle].
    unfold v2_playbook_on_task_start, _start_task. rewrite Hnone.
    cbn [snd set_task_data _task_data]. by rewrite lookup_insert_eq.
  - exact Hagain.
Qed.

(** * The properties on concrete runs *)

(** An ignored failure that reports a change, with [fail_on_ignore] off
    and [fail_on_change] on: the child [ok] is not incremented, the child
    [failed] is. *)
Lemma ignored_failure_not_counted_ok :
  let self := after env_fail_on_change started in
  let self' := snd (handle setup_actions (RunnerFailed (result_t1 true) true)
                      (207 # 2)%Q self) in
  fail_on_ignore_on self = false
  ∧ fail_on_change_on self = true
  ∧ changed_of (result_t1 true) = true
  ∧ tasks_status_value self' "site" "h1" "ok" = tasks_status_value self "site" "h1" "ok"
  ∧ tasks_status_value self' "site" "h1" "ok" ≠ tasks_status_value self "site" "h1" "ok" + 1
  ∧ tasks_status_value self' "site" "h1" "failed"
    = tasks_status_value self "site" "h1" "failed" + 1.
Proof.
  cbv zeta. repeat (split; [vm_compute; reflexivity|]).
  split; [|vm_compute; reflexivity].
  intros Heq. vm_compute in Heq. discriminate Heq.
Qed.

Lemma ignored_failure_then_fail_on_change_witness :
  ∃ self', v2_runner_on_failed setup_actions (result_t1 true) true (207 # 2)%Q
             (after env_fail_on_change started) = (Returned, self')
    ∧ tasks_status_value self' "site" "h1" "failed"
      = tasks_status_value (after env_fail_on_change started) "site" "h1" "failed" + 1
    ∧ tasks_status_value self' "site" "h1" "ok"
      = tasks_status_value (after env_fail_on_change started) "site" "h1" "ok".
Proof.
  eapply (ignored_failure_then_fail_on_change setup_actions (result_t1 true) (207 # 2)%Q
            (after env_fail_on_change started)
            (TaskData.mk (Some "site") "command" 101%Q));
    vm_compute; reflexivity.
Defined.

Lemma changed_counted_besides_status_witness :
  ∃ self' final,
    handle setup_actions (RunnerOk (result_t1 true)) 104%Q
      (after env_fail_on_change started) = (Returned, self')
    ∧ final ∈ raw_statuses
    ∧ tasks_status_value self' "site" "h1" final
      = tasks_status_value (after env_fail_on_change started) "site" "h1" final + 1
    ∧ tasks_status_value self' "site" "h1" "changed"
      = tasks_status_value (after env_fail_on_change started) "site" "h1" "changed" + 1
    ∧ (RunnerOk (result_t1 true) = RunnerFailed (result_t1 true) false → final = "failed")
    ∧ (RunnerOk (result_t1 true) = RunnerOk (result_t1 true) →
       fail_on_change_on (after env_fail_on_change started) = true → final = "failed").
Proof.
  eapply (changed_counted_besides_status setup_actions (RunnerOk (result_t1 true))
            (result_t1 true) 104%Q (after env_fail_on_change started)
            (TaskData.mk (Some "site") "command" 101%Q));
    vm_compute; reflexivity.
Defined.

Lemma start_task_idempotent_witness :
  _start_task (Task.mk "t1" "shell") 250%Q (after ∅ started)
  = (Returned, after ∅ started)
  ∧ _task_data (after ∅ started) !! "t1"
    = Some (TaskData.mk (Some "site") "command" 101%Q).
Proof.
  assert (Htd : _task_data (after ∅ started) !! Task._uuid (Task.mk "t1" "shell")
                = Some (TaskData.mk (Some "site") "command" 101%Q))
    by (vm_compute; reflexivity).
  split; [|exact Htd].
  exact (proj1 (start_task_idempotent setup_actions (Task.mk "t1" "shell") 250%Q
                  (after ∅ started) _ Htd)).
Defined.

Lemma unknown_task_raises_witness :
  handle setup_actions (RunnerOk result_unknown) 104%Q (after ∅ started)
  = (Raised (KeyError "t9"), after ∅ started).
Proof.
  apply (unknown_task_raises setup_actions (RunnerOk result_unknown) result_unknown
           104%Q (after ∅ started)); vm_compute; reflexivity.
Defined.

Lemma setup_task_dropped_witness :
  handle setup_actions (RunnerOk result_setup) 104%Q
    (after (env_include_setup "False") setup_started)
  = (Returned, after (env_include_setup "False") setup_started).
Proof.
  apply (setup_task_dropped setup_actions (RunnerOk result_setup) result_setup 104%Q
           (after (env_include_setup "False") setup_started)
           (TaskData.mk (Some "site") "setup" 101%Q)).
  - reflexivity.
  - vm_compute; reflexivity.
  - cbn [TaskData.action]. unfold setup_actions. set_solver.
  - vm_compute; reflexivity.
Defined.

(** [banana] is no boolean; as the value of [include_setup_tasks] it is
    not read as false: the result of a setup task is counted, as it is not
    when the value is [False]. *)
Lemma invalid_include_setup_tasks_is_on :
  ¬ valid_boolean "banana"
  ∧ include_setup_tasks_off (after (env_include_setup "banana") setup_started) = false
  ∧ tasks_status_value
      (snd (handle setup_actions (RunnerOk result_setup) 104%Q
              (after (env_include_setup "banana") setup_started))) "site" "h1" "ok" = 1
  ∧ tasks_status_value
      (snd (handle setup_actions (RunnerOk result_setup) 104%Q
              (after (env_include_setup "False") setup_started))) "site" "h1" "ok" = 0.
Proof.
  split; [intros [Heq|Heq]; vm_compute in Heq; discriminate Heq|].
  vm_compute. repeat split; reflexivity.
Qed.

Lemma invalid_boolean_is_default_witness :
  fail_on_change_on
    (__init__ versions (<["PROMETHEUS_FAIL_ON_CHANGE" := "banana"]> ∅) true) = false
  ∧ include_setup_tasks_off
      (__init__ versions (<["PROMETHEUS_INCLUDE_SETUP_TASKS" := "banana"]> ∅) true)
    = false.
Proof.
  assert (Hinv : ¬ valid_boolean "banana")
    by (intros [Heq|Heq]; vm_compute in Heq; discriminate Heq).
  pose proof (invalid_boolean_is_default versions ∅ true "banana" Hinv) as Hthm.
  cbv zeta in Hthm. split; [apply Hthm | apply Hthm].
Defined.

(** After the statistics event a play start returns and sets the play
    name, and the whole run with further events after it raises nothing. *)
Lemma play_start_after_stats_accepted :
  let finished := after ∅ [(PlaybookStart site_yml, 100%Q); (Stats, 130%Q)] in
  v2_playbook_on_stats 130%Q (after ∅ [(PlaybookStart site_yml, 100%Q)])
  = (Returned, finished)
  ∧ _play_name finished = None
  ∧ handle setup_actions (PlayStart site) 131%Q finished
    = (Returned, set_play_name (Some "site") finished)
  ∧ fst (run setup_actions
           [(PlaybookStart site_yml, 100%Q); (Stats, 130%Q); (PlayStart site, 131%Q);
            (TaskStart t1 false, 132%Q); (RunnerOk (result_t1 false), 133%Q);
            (Stats, 134%Q)]
           (__init__ versions ∅ true)) = Returned.
Proof. vm_compute. repeat split; reflexivity. Qed.

Lemma events_after_stats_are_processed_witness :
  handle setup_actions (PlayStart site) 131%Q
    (after ∅ [(PlaybookStart site_yml, 100%Q); (Stats, 130%Q)])
  = (Returned,
     set_play_name (Some (Play.get_name site))
       (after ∅ [(PlaybookStart site_yml, 100%Q); (Stats, 130%Q)])).
Proof.
  refine (proj1 (proj2 (events_after_stats_are_processed setup_actions 130%Q
                          (after ∅ [(PlaybookStart site_yml, 100%Q)])
                          (after ∅ [(PlaybookStart site_yml, 100%Q); (Stats, 130%Q)])
                          _)) site 131%Q).
  vm_compute; reflexivity.
Defined.



(** The clock set back by five seconds between the start of a task and
    its result: the duration child goes from 0 to -5. *)
Lemma duration_decreases_when_clock_goes_back :
  let self := after ∅ started in
  let self' := snd (handle setup_actions (RunnerOk (result_t1 false)) 96%Q self) in
  fst (handle setup_actions (RunnerOk (result_t1 false)) 96%Q self) = Returned
  ∧ tasks_duration_value self "site" "h1" = 0
  ∧ tasks_duration_value self' "site" "h1" = -5
  ∧ ¬ (tasks_duration_value self "site" "h1" <= tasks_duration_value self' "site" "h1")%Z.
Proof.
  cbv zeta. split; [vm_compute; reflexivity|].
  split; [vm_compute; reflexivity|]. split; [vm_compute; reflexivity|].
  intros Hle. vm_compute in Hle. by apply Hle.
Qed.

Lemma task_duration_accumulates_witness :
  ∃ self', handle setup_actions (RunnerOk (result_t1 false)) (207 # 2)%Q (after ∅ started)
           = (Returned, self')
    ∧ tasks_duration_value self' "site" "h1"
      = tasks_duration_value (after ∅ started) "site" "h1" + py_int ((207 # 2) - 101).
Proof.
  destruct (task_duration_accumulates setup_actions (RunnerOk (result_t1 false))
              (result_t1 false) (207 # 2)%Q (after ∅ started)
              (TaskData.mk (Some "site") "command" 101%Q)
              (info_playbook [("name", "site.yml")] (_register_metrics versions))
              eq_refl)
    as (self' & Hrun & Hval & _); [vm_compute; reflexivity ..|].
  exists self'. split; [exact Hrun | exact Hval].
Defined.

(** * Further properties of the methods *)

(** ** Runs *)

Lemma run_cons A e now rest self :
  run A ((e, now) :: rest) self
  = match handle A e now self with
    | (Returned, self') => run A rest self'
    | (Raised x, self') => (Raised x, self')
    end.
Proof. reflexivity. Qed.

(** A relation between the callback before and after that every allowed
    event keeps, is kept by every run of allowed events, whether the run
    returns or stops at an exception. *)
Lemma run_keeps A (allowed : Event → Prop) (P : CallbackModule → CallbackModule → Prop) :
  (∀ self, P self self) →
  (∀ s1 s2 s3, P s1 s2 → P s2 s3 → P s1 s3) →
  (∀ e now self, allowed e → P self (snd (handle A e now self))) →
  ∀ events self, Forall (λ en, allowed (fst en)) events →
    P self (snd (run A events self)).
Proof.
  intros Hrefl Htrans Hstep events.
  induction events as [|[e now] rest IH]; intros self Hall.
  - apply Hrefl.
  - rewrite run_cons. apply Forall_cons in Hall as [He Hrest]. cbn [fst] in He.
    pose proof (Hstep e now self He) as Hone.
    destruct (handle A e now self) as [[|x] self']; cbn [snd] in *.
    + eapply Htrans; [exact Hone | by apply IH].
    + exact Hone.
Qed.

Lemma all_allowed (events : list (Event * Q)) :
  Forall (λ en : Event * Q, (λ _ : Event, True) (fst en)) events.
Proof. by apply Forall_forall. Qed.

(** Unfolds the event methods down to the attributes they read. *)
Ltac unfold_methods :=
  cbn [handle];
  unfold v2_playbook_on_start, v2_playbook_on_play_start, v2_runner_on_no_hosts,
    v2_playbook_on_task_start, v2_playbook_on_cleanup_task_start,
    v2_playbook_on_handler_task_start, v2_runner_on_failed, v2_runner_on_ok,
    v2_runner_on_skipped, v2_playbook_on_stats, and_then, _start_playbook,
    _finish_playbook, _start_task, _finish_task, write_metrics_textfile.

(** Case analysis on every test a method makes. *)
Ltac method_cases := unfold_methods; repeat case_match; simplify_eq; cbn.

(** ** Task registry *)

(** X1: starting a task whose id is new registers it with the play name
    current at that moment, the task's action and the clock reading; every
    other entry of the registry is as before, the registry has one entry
    more, and no gauge, file or option is touched. *)
Theorem start_task_registers (task : Task.t) (now : Q) (self : CallbackModule) :
  _task_data self !! Task._uuid task = None →
  ∃ self', _start_task task now self = (Returned, self')
    ∧ _task_data self' !! Task._uuid task
      = Some (TaskData.mk (_play_name self) (Task.action task) now)
    ∧ (∀ u, u ≠ Task._uuid task → _task_data self' !! u = _task_data self !! u)
    ∧ size (_task_data self') = S (size (_task_data self))
    ∧ _registry self' = _registry self
    ∧ written self' = written self
    ∧ configuration self' = configuration self
    ∧ _play_name self' = _play_name self
    ∧ _start_time self' = _start_time self.
Proof.
  intros Hnone. unfold _start_task. rewrite Hnone. eexists. split; [reflexivity|].
  cbn [set_task_data _task_data]. split; [by rewrite lookup_insert_eq|].
  split; [intros u Hne; by rewrite lookup_insert_ne|].
  split; [by apply map_size_insert_None|]. done.
Qed.

(** X2: no event removes or rewrites a registered task: an entry of the
    registry is still there, unchanged, after any run, also one that stops
    at an exception. *)
Theorem registered_tasks_persist (A : gset string) (events : list (Event * Q))
    (self : CallbackModule) (u : string) (td : TaskData.t) :
  _task_data self !! u = Some td →
  _task_data (snd (run A events self)) !! u = Some td.
Proof.
  refine (run_keeps A (λ _, True)
            (λ s s', _task_data s !! u = Some td → _task_data s' !! u = Some td)
            _ _ _ events self (all_allowed events)); [done | naive_solver |].
  clear self. intros e now self _ Htd.
  destruct e; method_cases; try done.
  all: destruct (decide (Task._uuid task = u)) as [Heq|Hne];
    [rewrite Heq, Htd in *; discriminate | by rewrite lookup_insert_ne].
Qed.

(** ** Configuration and the text file *)

(** X3: the output file and the three options are fixed when the callback
    is created: no run changes them. *)
Theorem configuration_never_changes (A : gset string) (events : list (Event * Q))
    (self : CallbackModule) :
  configuration (snd (run A events self)) = configuration self.
Proof.
  refine (run_keeps A (λ _, True) (λ s s', configuration s' = configuration s)
            _ _ _ events self (all_allowed events)); [done | congruence |].
  clear self. intros e now self _. destruct e; method_cases; done.
Qed.

(** X4: only the statistics event writes the text file: a run without it,
    however long, writes nothing. *)
Theorem written_only_by_stats (A : gset string) (events : list (Event * Q))
    (self : CallbackModule) :
  Forall (λ en, is_stats (fst en) = false) events →
  written (snd (run A events self)) = written self.
Proof.
  intros Hall.
  refine (run_keeps A (λ e, is_stats e = false) (λ s s', written s' = written s)
            _ _ _ events self Hall); [done | congruence |].
  clear self Hall. intros e now self Hns. destruct e; try discriminate; method_cases; done.
Qed.

(** X5: at the statistics event of a started playbook [_finish_playbook]
    returns after adding [int(finish_time - start_time)] to the playbook
    duration, leaving the task gauges and the playbook info as they were;
    the duration does not decrease when the clock did not go back since the
    playbook started.  Only then is [write_to_textfile] called, with the
    output file and the registry that already holds that duration, and the
    callback keeps this registry whatever becomes of the write. *)
Theorem stats_adds_duration_before_write (now t : Q) (self : CallbackModule)
    (r : Registry) :
  _registry self = Some r →
  _start_time self = Some t →
  ∃ r', _finish_playbook now self = (Returned, set_registry r' self)
    ∧ _metric_playbook_duration r' = _metric_playbook_duration r + py_int (now - t)
    ∧ _metric_tasks_status r' = _metric_tasks_status r
    ∧ _metric_tasks_duration r' = _metric_tasks_duration r
    ∧ _metric_info_playbook r' = _metric_info_playbook r
    ∧ ((t <= now)%Q → (_metric_playbook_duration r <= _metric_playbook_duration r')%Z)
    ∧ written (snd (v2_playbook_on_stats now self)) = (_output_file self, r') :: written self
    ∧ _registry (snd (v2_playbook_on_stats now self)) = Some r'.
Proof.
  intros Hr Ht.
  unfold v2_playbook_on_stats, and_then, write_metrics_textfile.
  unfold _finish_playbook. rewrite Hr, Ht. cbn [set_registry _registry].
  eexists. split; [reflexivity|].
  cbn [playbook_duration_inc _metric_playbook_duration _metric_tasks_status
       _metric_tasks_duration _metric_info_playbook snd add_written written _registry
       _output_file].
  repeat (split; [reflexivity|]).
  split; [|done].
  intros Hle. pose proof (py_int_nonneg _ _ Hle). lia.
Qed.

(** X6: in a run with no playbook start the start time stays unset, and a
    statistics event then raises [TypeError] from the subtraction: nothing
    is written and the callback is left as it was. *)
Theorem stats_without_playbook_start_raises (A : gset string)
    (info : list (string * string)) (env : gmap string string)
    (events : list (Event * Q)) (now : Q) :
  Forall (λ en, is_playbook_start (fst en) = false) events →
  let self := snd (run A events (__init__ info env true)) in
  v2_playbook_on_stats now self = (Raised TypeError, self)
  ∧ written self = [].
Proof.
  intros Hall self.
  assert (Hinv : _start_time self = None ∧ is_Some (_registry self) ∧ written self = []).
  { subst self.
    refine (run_keeps A (λ e, is_playbook_start e = false)
              (λ s s', _start_time s = None ∧ is_Some (_registry s) ∧ written s = [] →
                       _start_time s' = None ∧ is_Some (_registry s') ∧ written s' = [])
              _ _ _ events (__init__ info env true) Hall _);
      [done | intros s1 s2 s3 H12 H23 H1; apply H23, H12, H1 | | by cbn; eauto].
    intros e t s Hns (Hst & [r Hr] & Hw).
    destruct e; try discriminate; method_cases; eauto; congruence. }
  destruct Hinv as (Hst & [r Hr] & Hw). split; [|exact Hw].
  unfold v2_playbook_on_stats, and_then, _finish_playbook. by rewrite Hr, Hst.
Qed.

(** ** Labels *)

(** X7: the play label of a result is the play name recorded when its task
    started: [_finish_task] does not read the current play name, so a play
    start between the start of a task and its result changes neither the
    outcome nor any gauge. *)
Theorem result_label_fixed_at_task_start (A : gset string) (status : string)
    (result : TaskResult.t) (now : Q) (play : Play.t) (self : CallbackModule) :
  let later := snd (v2_playbook_on_play_start play self) in
  fst (_finish_task A status result now later) = fst (_finish_task A status result now self)
  ∧ _registry (snd (_finish_task A status result now later))
    = _registry (snd (_finish_task A status result now self))
  ∧ _play_name (snd (_finish_task A status result now later))
    = Some (Play.get_name play).
Proof.
  intros later. subst later. unfold v2_playbook_on_play_start. cbn [snd].
  unfold _finish_task, include_setup_tasks_off, fail_on_change_on.
  cbn [set_play_name _task_data _registry _include_setup_tasks _fail_on_change].
  destruct (_task_data self !! Task._uuid (TaskResult._task result)) as [td|].
  - destruct (bool_decide (TaskData.action td ∈ A)
              && String.eqb (_include_setup_tasks self) "false").
    + repeat split.
    + destruct (_registry self); repeat split.
  - repeat split.
Qed.

(** ** Classification *)

Lemma handle_counted A e result now self td r :
  result_of e = Some result →
  _task_data self !! Task._uuid (TaskResult._task result) = Some td →
  setup_excluded A self td = false →
  _registry self = Some r →
  ∃ status, status ∈ raw_statuses
    ∧ final_status e self = Some (reclassified self status (changed_of result))
    ∧ handle A e now self
      = (Returned, set_registry (counted self td status result now r) self).
Proof.
  intros He Htd Hex Hr.
  assert (Hcount : ∀ status,
    _finish_task A status result now self
    = (Returned, set_registry (counted self td status result now r) self))
    by (intros; by apply _finish_task_counted).
  destruct e as [| | | | | |res i|res|res|]; cbn [result_of] in He; try discriminate;
    injection He as ->; cbn [handle final_status].
  - unfold v2_runner_on_failed, reclassified.
    destruct (i && negb (fail_on_ignore_on self)).
    + exists "ok". split; [apply elem_of_cons; by left|].
      split; [by rewrite String.eqb_refl, andb_true_r | apply Hcount].
    + exists "failed". split; [apply elem_of_cons; right; apply elem_of_cons; by left|].
      split; [|apply Hcount]. cbn. by rewrite andb_false_r.
  - exists "ok". split; [apply elem_of_cons; by left|].
    split; [|apply Hcount]. unfold reclassified.
    by rewrite String.eqb_refl, andb_true_r.
  - exists "skipped". split; [unfold raw_statuses; set_solver|].
    split; [|apply Hcount]. unfold reclassified. cbn. by rewrite andb_false_r.
Qed.

(** X8: a counted result event increments exactly one of the children
    [ok], [failed] and [skipped] of its (play, host), by one, and leaves
    the other two as they were.  Which one: a failure counts as [failed]
    unless it is ignored and [fail_on_ignore] is off, in which case it is
    treated as an [ok] result; an [ok] result counts as [failed] when it
    reports a change and [fail_on_change] is on, and as [ok] otherwise; a
    skipped result always counts as [skipped]. *)
Theorem result_counted_under_final_status (A : gset string) (e : Event)
    (result : TaskResult.t) (now : Q) (self : CallbackModule) (td : TaskData.t)
    (r : Registry) :
  result_of e = Some result →
  _task_data self !! Task._uuid (TaskResult._task result) = Some td →
  setup_excluded A self td = false →
  _registry self = Some r →
  let play := py_str (TaskData.play td) in
  let host := Host.name (TaskResult._host result) in
  ∃ self' final, handle A e now self = (Returned, self')
    ∧ final_status e self = Some final
    ∧ final ∈ raw_statuses
    ∧ tasks_status_value self' play host final
      = tasks_status_value self play host final + 1
    ∧ ∀ st, st ∈ raw_statuses → st ≠ final →
        tasks_status_value self' play host st = tasks_status_value self play host st.
Proof.
  intros He Htd Hex Hr play host.
  destruct (handle_counted A e result now self td r He Htd Hex Hr)
    as (status & Hraw & Hfinal & Hrun).
  destruct (finish_task_status_values A status result now self td r Htd Hex Hr Hraw)
    as (self' & Hrun' & Hval & _ & Hrest).
  rewrite (_finish_task_counted A status result now self td r Htd Hex Hr) in Hrun'.
  exists self', (reclassified self status (changed_of result)).
  split; [by rewrite Hrun, Hrun'|]. split; [exact Hfinal|].
  split; [by apply reclassified_raw|]. split; [exact Hval|].
  intros st Hst Hne. apply Hrest; [exact Hne|].
  apply raw_not_changed in Hst. apply String.eqb_neq in Hst. exact Hst.
Qed.

(** X9: a result whose dictionary has no entry [changed] is treated as
    unchanged: the child [changed] is neither incremented nor created, and
    an [ok] result is counted as [ok] even with [fail_on_change] on. *)
Theorem missing_changed_entry_is_unchanged (A : gset string) (result : TaskResult.t)
    (now : Q) (self : CallbackModule) (td : TaskData.t) (r : Registry) :
  TaskResult._result result !! "changed" = None →
  _task_data self !! Task._uuid (TaskResult._task result) = Some td →
  setup_excluded A self td = false →
  _registry self = Some r →
  let play := py_str (TaskData.play td) in
  let host := Host.name (TaskResult._host result) in
  ∃ self' r', v2_runner_on_ok A result now self = (Returned, self')
    ∧ _registry self' = Some r'
    ∧ tasks_status_value self' play host "ok" = tasks_status_value self play host "ok" + 1
    ∧ tasks_status_value self' play host "failed"
      = tasks_status_value self play host "failed"
    ∧ _metric_tasks_status r' !! (play, host, "changed")
      = _metric_tasks_status r !! (play, host, "changed").
Proof.
  intros Hnone Htd Hex Hr play host.
  assert (Hch : changed_of result = false) by (unfold changed_of; by rewrite Hnone).
  assert (Hok : "ok" ∈ raw_statuses) by (apply elem_of_cons; by left).
  destruct (finish_task_status_values A "ok" result now self td r Htd Hex Hr Hok)
    as (self' & Hrun & Hval & _ & Hrest).
  unfold reclassified in Hval, Hrest. rewrite Hch, andb_false_r in Hval, Hrest.
  exists self', (counted self td "ok" result now r).
  split; [exact Hrun|].
  rewrite (_finish_task_counted A "ok" result now self td r Htd Hex Hr) in Hrun.
  injection Hrun as <-.
  split; [done|]. split; [exact Hval|]. split; [by apply Hrest|].
  unfold counted. rewrite Hch. unfold reclassified. rewrite andb_false_r.
  cbn [tasks_duration_inc tasks_status_inc _metric_tasks_status].
  unfold labels_inc. by rewrite lookup_insert_ne.
Qed.

(** ** Counters over a run *)

Lemma _finish_task_no_registry A status result now self td :
  _task_data self !! Task._uuid (TaskResult._task result) = Some td →
  setup_excluded A self td = false →
  _registry self = None →
  _finish_task A status result now self
  = (Raised (AttributeError "_metric_tasks_status"), self).
Proof.
  intros Htd Hex Hr. unfold _finish_task, setup_excluded in *.
  by rewrite Htd, Hex, Hr.
Qed.

(** What a result event leaves behind: the callback as it was, or the
    callback with the registry of the counted result. *)
Lemma handle_result_cases A e result now self :
  result_of e = Some result →
  snd (handle A e now self) = self
  ∨ ∃ td r status, status ∈ raw_statuses
      ∧ _task_data self !! Task._uuid (TaskResult._task result) = Some td
      ∧ _registry self = Some r
      ∧ handle A e now self
        = (Returned, set_registry (counted self td status result now r) self).
Proof.
  intros He. destruct (handle_result A e now self result He) as (status & Hraw & ->).
  destruct (_task_data self !! Task._uuid (TaskResult._task result)) as [td|] eqn:Htd;
    [|left; by rewrite _finish_task_unknown].
  destruct (setup_excluded A self td) eqn:Hex;
    [left; by rewrite (_finish_task_excluded A status result now self td)|].
  destruct (_registry self) as [r|] eqn:Hr;
    [|left; by rewrite (_finish_task_no_registry A status result now self td)].
  right. exists td, r, status. repeat split; try done.
  by apply _finish_task_counted.
Qed.

Lemma handle_status_value_mono A e now self p h st :
  (tasks_status_value self p h st
   <= tasks_status_value (snd (handle A e now self)) p h st)%Z.
Proof.
  destruct (result_of e) as [result|] eqn:He.
  - destruct (handle_result_cases A e result now self He)
      as [->|(td & r & status & _ & _ & Hr & ->)]; [lia|].
    unfold tasks_status_value. cbn [snd set_registry _registry]. rewrite Hr.
    destruct (decide ((p, h) = (py_str (TaskData.play td),
                                Host.name (TaskResult._host result)))) as [Heq|Hne].
    + injection Heq as -> ->. rewrite counted_status_value.
      destruct (String.eqb _ st), (changed_of result && String.eqb "changed" st); lia.
    + rewrite counted_status_other by done. lia.
  - unfold tasks_status_value.
    destruct e; cbn [result_of] in He; try discriminate; unfold_methods;
      repeat (case_match; cbn in *; simplify_eq); try lia.
    unfold set_registry in *. cbn in *. simplify_eq. cbn. lia.
Qed.

(** X10: the status gauge only counts up: no event lowers the value of
    any of its children, so after any run every child shows at least what
    it showed before. *)
Theorem status_counters_never_decrease (A : gset string) (events : list (Event * Q))
    (self : CallbackModule) (p h st : string) :
  (tasks_status_value self p h st
   <= tasks_status_value (snd (run A events self)) p h st)%Z.
Proof.
  refine (run_keeps A (λ _, True)
            (λ s s', (tasks_status_value s p h st <= tasks_status_value s' p h st)%Z)
            _ _ _ events self (all_allowed events)).
  - intros s. lia.
  - intros s1 s2 s3 H12 H23. lia.
  - intros e now s _. apply handle_status_value_mono.
Qed.


(** X12: no update is lost: when [n] results of the same kind arrive for
    the same task and host, the child of their final status goes up by [n],
    the child [changed] by [n] if they report a change and by nothing
    otherwise, and the duration child by the sum of the truncated
    durations. *)
Theorem repeated_results_are_all_counted (A : gset string) (e : Event)
    (result : TaskResult.t) (nows : list Q) (self : CallbackModule) (td : TaskData.t)
    (r : Registry) :
  result_of e = Some result →
  _task_data self !! Task._uuid (TaskResult._task result) = Some td →
  setup_excluded A self td = false →
  _registry self = Some r →
  let play := py_str (TaskData.play td) in
  let host := Host.name (TaskResult._host result) in
  ∃ self' final, run A ((λ now, (e, now)) <$> nows) self = (Returned, self')
    ∧ final_status e self = Some final
    ∧ tasks_status_value self' play host final
      = tasks_status_value self play host final + Z.of_nat (length nows)
    ∧ tasks_status_value self' play host "changed"
      = tasks_status_value self play host "changed"
        + (if changed_of result then Z.of_nat (length nows) else 0)
    ∧ tasks_duration_value self' play host
      = tasks_duration_value self play host
        + total_seconds (TaskData.start_time td) nows.
Proof.
  intros He Htd Hex Hr play host. revert self r Htd Hex Hr.
  induction nows as [|now rest IH]; intros self r Htd Hex Hr.
  - destruct (handle_counted A e result 0%Q self td r He Htd Hex Hr)
      as (status & _ & Hfinal & _).
    exists self, (reclassified self status (changed_of result)).
    cbn [fmap list_fmap run length total_seconds].
    repeat split; try done; try lia. destruct (changed_of result); lia.
  - destruct (handle_counted A e result now self td r He Htd Hex Hr)
      as (status & Hraw & Hfinal & Hrun).
    destruct (finish_task_status_values A status result now self td r Htd Hex Hr Hraw)
      as (s1 & Hrun1 & Hval & Hchg & _).
    rewrite (_finish_task_counted A status result now self td r Htd Hex Hr) in Hrun1.
    injection Hrun1 as <-.
    set (s1 := set_registry (counted self td status result now r) self) in *.
    destruct (IH s1 (counted self td status result now r)) as (self' & final & Hrest
      & Hfinal' & Hval' & Hchg' & Hdur'); [done | done | done |].
    assert (final = reclassified self status (changed_of result)) as ->.
    { assert (Hsame : final_status e s1 = final_status e self)
        by (by destruct e).
      congruence. }
    exists self', (reclassified self status (changed_of result)).
    split; [cbn [fmap list_fmap]; rewrite run_cons, Hrun; exact Hrest|].
    split; [exact Hfinal|].
    fold play host in Hval, Hchg, Hval', Hchg', Hdur'.
    rewrite Hval', Hchg', Hdur', Hval, Hchg.
    assert (Hdur1 : tasks_duration_value s1 play host
                    = tasks_duration_value self play host
                      + py_int (now - TaskData.start_time td)).
    { unfold tasks_duration_value. subst s1. cbn [set_registry _registry].
      rewrite Hr. apply counted_duration_value. }
    rewrite Hdur1. cbn [length total_seconds].
    repeat split; try lia. destruct (changed_of result); lia.
Qed.

(** ** Truncation of durations *)

Lemma py_int_bounds (x : Q) :
  (0 <= x)%Q → (inject_Z (py_int x) <= x)%Q ∧ (x < inject_Z (py_int x) + 1)%Q.
Proof.
  destruct x as [n d]. unfold Qle, Qlt, py_int, inject_Z, Qplus. cbn.
  intros Hn. assert (0 <= n)%Z as Hn' by lia.
  rewrite Z.quot_div_nonneg by lia.
  pose proof (Z.mul_div_le n (Z.pos d) ltac:(lia)).
  pose proof (Z.mul_succ_div_gt n (Z.pos d) ltac:(lia)).
  split; lia.
Qed.

(** X13: a counted result adds whole seconds, rounded down.  For a result
    time not before the start time of the task and at most twice it, the
    range in which the subtraction of the two clock readings is exact, the
    amount added to the duration child is at most the elapsed time and
    misses it by less than a second; a result within the first second adds
    nothing. *)
Theorem duration_added_is_rounded_down (A : gset string) (e : Event)
    (result : TaskResult.t) (now : Q) (self : CallbackModule) (td : TaskData.t)
    (r : Registry) :
  result_of e = Some result →
  _task_data self !! Task._uuid (TaskResult._task result) = Some td →
  setup_excluded A self td = false →
  _registry self = Some r →
  (TaskData.start_time td <= now)%Q →
  (now <= 2 * TaskData.start_time td)%Q →
  let play := py_str (TaskData.play td) in
  let host := Host.name (TaskResult._host result) in
  ∃ self' added, handle A e now self = (Returned, self')
    ∧ tasks_duration_value self' play host = tasks_duration_value self play host + added
    ∧ (inject_Z added <= now - TaskData.start_time td)%Q
    ∧ (now - TaskData.start_time td < inject_Z added + 1)%Q
    ∧ ((now - TaskData.start_time td < 1)%Q → added = 0).
Proof.
  intros He Htd Hex Hr Hle _ play host.
  destruct (handle_counted A e result now self td r He Htd Hex Hr)
    as (status & _ & _ & Hrun).
  exists (set_registry (counted self td status result now r) self),
         (py_int (now - TaskData.start_time td)).
  split; [exact Hrun|].
  split.
  { unfold tasks_duration_value. cbn [set_registry _registry]. rewrite Hr.
    apply counted_duration_value. }
  assert (Hpos : (0 <= now - TaskData.start_time td)%Q).
  { unfold Qle, Qminus, Qplus, Qopp in *. cbn in *. lia. }
  destruct (py_int_bounds _ Hpos) as [Hlo Hhi].
  split; [exact Hlo|]. split; [exact Hhi|].
  intros Hlt. pose proof (py_int_nonneg _ _ Hle) as Hnn.
  assert (Hone : (inject_Z (py_int (now - TaskData.start_time td)) < 1)%Q)
    by (eapply Qle_lt_trans; [exact Hlo | exact Hlt]).
  unfold Qlt, inject_Z in Hone. cbn in Hone. lia.
Qed.

(** ** Options *)

Lemma lower_idempotent (s : string) : lower (lower s) = lower s.
Proof.
  induction s as [|c s IH]; [done|]. cbn [lower]. rewrite IH. f_equal.
  unfold lower_ascii. destruct (Nat.leb 65 (nat_of_ascii c) && Nat.leb (nat_of_ascii c) 90)
    eqn:Hup.
  - apply andb_true_iff in Hup as [Hlo Hhi].
    apply Nat.leb_le in Hlo, Hhi.
    rewrite nat_ascii_embedding by lia.
    replace (Nat.leb (nat_of_ascii c + 32) 90) with false
      by (symmetry; apply Nat.leb_gt; lia).
    by rewrite andb_false_r.
  - by rewrite Hup.
Qed.

(** X14: an option is read without regard to letter case and against one
    word only: [fail_on_change] and [fail_on_ignore] are on exactly when
    the variable, lowered, is [true], and setup tasks are left out exactly
    when [PROMETHEUS_INCLUDE_SETUP_TASKS], lowered, is [false]; with the
    variables unset both failure options are off and setup tasks are
    counted; and giving a value in lower case instead configures the
    callback the same. *)
Theorem options_compare_lowered_value (info : list (string * string))
    (env : gmap string string) (b : bool) (s : string) :
  (fail_on_change_on (__init__ info (<["PROMETHEUS_FAIL_ON_CHANGE" := s]> env) b) = true
   ↔ lower s = "true")
  ∧ (fail_on_ignore_on (__init__ info (<["PROMETHEUS_FAIL_ON_IGNORE" := s]> env) b) = true
     ↔ lower s = "true")
  ∧ (include_setup_tasks_off
       (__init__ info (<["PROMETHEUS_INCLUDE_SETUP_TASKS" := s]> env) b) = true
     ↔ lower s = "false")
  ∧ fail_on_change_on (__init__ info ∅ b) = false
  ∧ fail_on_ignore_on (__init__ info ∅ b) = false
  ∧ include_setup_tasks_off (__init__ info ∅ b) = false
  ∧ (∀ name, name ∈ ["PROMETHEUS_FAIL_ON_CHANGE"; "PROMETHEUS_FAIL_ON_IGNORE";
                     "PROMETHEUS_INCLUDE_SETUP_TASKS"] →
       configuration (__init__ info (<[name := lower s]> env) b)
       = configuration (__init__ info (<[name := s]> env) b)).
Proof.
  unfold fail_on_change_on, fail_on_ignore_on, include_setup_tasks_off, __init__, os_getenv.
  cbn [_fail_on_change _fail_on_ignore _include_setup_tasks].
  rewrite !lookup_insert_eq, !lookup_empty.
  repeat split; try apply String.eqb_eq; try done; try (by apply String.eqb_eq).
  intros name Hname. unfold configuration. cbn.
  rewrite !elem_of_cons, elem_of_nil in Hname.
  destruct Hname as [->|[->|[->|[]]]];
    rewrite ?lookup_insert_eq, ?lookup_insert_ne by done;
    by rewrite ?lower_idempotent.
Qed.

(** ** Playbook *)

(** The base name has no slash, and the path is a directory part, empty
    or ending in a slash, followed by it. *)
Lemma basename_spec (p : string) :
  has_sep (basename p) = false
  ∧ ∃ dir, p = dir ++ basename p ∧ (dir = "" ∨ ∃ d, dir = d ++ "/").
Proof.
  induction p as [|c r (IHsep & dir & Hr & Hdir)].
  - split; [done|]. exists "". by split; [|left].
  - cbn [basename]. destruct (has_sep (String c r)) eqn:Hsep.
    + split; [exact IHsep|]. exists (String c dir).
      split; [change (String c r = String c (dir +:+ basename r)); by f_equal|].
      right. destruct Hdir as [->|[d ->]].
      * change (r = basename r) in Hr. rewrite <- Hr in IHsep.
        cbn [has_sep] in Hsep. rewrite IHsep, orb_false_r in Hsep.
        apply Ascii.eqb_eq in Hsep as ->. by exists "".
      * by exists (String c d).
    + split; [exact Hsep|]. exists "". by split; [|left].
Qed.

(** X15: the start of a playbook records the clock reading and sets the
    label [name] of the playbook info to the file name: the part of the
    path after its last slash, with no slash in it.  Gauges and started
    tasks are kept, so a second start only replaces the name and the start
    time. *)
Theorem playbook_start_records_file_name (playbook : Playbook.t) (now : Q)
    (self : CallbackModule) (r : Registry) :
  _registry self = Some r →
  ∃ self' r' name dir, v2_playbook_on_start playbook now self = (Returned, self')
    ∧ _registry self' = Some r'
    ∧ _start_time self' = Some now
    ∧ _metric_info_playbook r' = [("name", name)]
    ∧ has_sep name = false
    ∧ Playbook._file_name playbook = dir ++ name
    ∧ (dir = "" ∨ ∃ d, dir = d ++ "/")
    ∧ _metric_tasks_status r' = _metric_tasks_status r
    ∧ _metric_tasks_duration r' = _metric_tasks_duration r
    ∧ _metric_playbook_duration r' = _metric_playbook_duration r
    ∧ _task_data self' = _task_data self
    ∧ _play_name self' = _play_name self.
Proof.
  intros Hr. unfold v2_playbook_on_start, _start_playbook. rewrite Hr.
  destruct (basename_spec (Playbook._file_name playbook)) as (Hsep & dir & Hpath & Hdir).
  eexists _, _, (basename (Playbook._file_name playbook)), dir.
  split; [reflexivity|]. cbn [set_start_time set_registry _registry _start_time].
  split; [reflexivity|]. repeat split; try done.
Qed.

(** ** A whole run *)

(** Reads the attributes of a callback built by the setters. *)
Ltac attributes :=
  cbn [__init__ set_play_name set_start_time set_task_data set_registry add_written
       _output_file _fail_on_change _fail_on_ignore _include_setup_tasks _play_name
       _start_time _task_data disabled _registry written].

(** X16: on a callback as [__init__] leaves it when it completes, with
    the metrics as [_register_metrics] creates them: one playbook, one
    play, one task that is no setup task, and one unchanged [ok] result
    for one host.  The four events return and write nothing; afterwards
    the child [ok] of the play and host is 1 and is the only child of the
    status gauge, and the duration child holds [int] of the time between
    task start and result.  At the statistics event [_finish_playbook]
    then returns with [int] of the time between playbook start and
    statistics as playbook duration, and [write_to_textfile] is called
    with the output file and that registry. *)
Theorem single_task_run_registry (A : gset string) (info : list (string * string))
    (playbook : Playbook.t) (play : Play.t) (task : Task.t) (c : bool) (host : Host.t)
    (dict : gmap string bool) (t0 t1 t2 t3 t4 : Q) (self : CallbackModule) :
  _registry self = Some (_register_metrics info) →
  _task_data self !! Task._uuid task = None →
  Task.action task ∉ A →
  default false (dict !! "changed") = false →
  let result := TaskResult.mk task host dict in
  let events := [(PlaybookStart playbook, t0); (PlayStart play, t1);
                 (TaskStart task c, t2); (RunnerOk result, t3)] in
  let key := (Play.get_name play, Host.name host) in
  ∃ self4 r r', run A events self = (Returned, self4)
    ∧ _registry self4 = Some r
    ∧ written self4 = written self
    ∧ _metric_tasks_status r !! (key, "ok") = Some 1
    ∧ size (_metric_tasks_status r) = 1%nat
    ∧ _metric_tasks_duration r !! key = Some (py_int (t3 - t2))
    ∧ _metric_info_playbook r = [("name", basename (Playbook._file_name playbook))]
    ∧ _metric_info_ansible r = info
    ∧ _finish_playbook t4 self4 = (Returned, set_registry r' self4)
    ∧ _metric_playbook_duration r' = py_int (t4 - t0)
    ∧ _metric_tasks_status r' = _metric_tasks_status r
    ∧ _metric_tasks_duration r' = _metric_tasks_duration r
    ∧ written (snd (v2_playbook_on_stats t4 self4)) = (_output_file self, r') :: written self.
Proof.
  intros Hr Hnone Hact Hch result events key. subst events.
  rewrite run_cons. cbn [handle]. unfold v2_playbook_on_start, _start_playbook.
  rewrite Hr. attributes.
  rewrite run_cons. cbn [handle]. unfold v2_playbook_on_play_start. attributes.
  rewrite run_cons. cbn [handle]. unfold v2_playbook_on_task_start, _start_task.
  attributes. rewrite Hnone. attributes.
  rewrite run_cons. cbn [handle]. unfold v2_runner_on_ok, _finish_task.
  attributes. cbn [result TaskResult._task TaskResult._result TaskResult._host].
  rewrite lookup_insert_eq. cbn [TaskData.__init__ TaskData.action].
  rewrite (bool_decide_false _ Hact). cbn [andb].
  rewrite Hch, andb_false_r. attributes.
  cbn [run].
  unfold v2_playbook_on_stats, and_then, _finish_playbook, write_metrics_textfile.
  attributes.
  eexists _, _, _. split; [reflexivity|]. attributes.
  split; [reflexivity|]. split; [reflexivity|].
  cbn [playbook_duration_inc tasks_duration_inc tasks_status_inc info_playbook
       _register_metrics _metric_tasks_status _metric_tasks_duration
       _metric_playbook_duration _metric_info_playbook _metric_info_ansible
       TaskData.play TaskData.start_time py_str snd].
  unfold labels_inc. rewrite !lookup_empty. cbn [default].
  split; [by rewrite lookup_insert_eq|].
  split; [by rewrite map_size_insert_None, map_size_empty by apply lookup_empty|].
  split; [by rewrite lookup_insert_eq|].
  split; [reflexivity|]. split; [reflexivity|].
  split; [reflexivity|].
  attributes. cbn [playbook_duration_inc _metric_playbook_duration _metric_tasks_status
                   _metric_tasks_duration].
  repeat split; reflexivity.
Qed.

(** ** Without the metrics library *)

(** X17: when [prometheus_client] cannot be imported the callback marks
    itself disabled and creates no metric, and no run changes that: there
    is never a registry, nothing is ever written, and a statistics event
    raises [AttributeError] instead of writing. *)
Theorem without_client_nothing_is_recorded (A : gset string)
    (info : list (string * string)) (env : gmap string string)
    (events : list (Event * Q)) (now : Q) :
  let self := snd (run A events (__init__ info env false)) in
  disabled self = true
  ∧ _registry self = None
  ∧ written self = []
  ∧ v2_playbook_on_stats now self
    = (Raised (AttributeError "_metric_playbook_duration"), self).
Proof.
  intros self.
  assert (Hinv : disabled self = true ∧ _registry self = None ∧ written self = []).
  { subst self.
    refine (run_keeps A (λ _, True)
              (λ s s', disabled s = true ∧ _registry s = None ∧ written s = [] →
                       disabled s' = true ∧ _registry s' = None ∧ written s' = [])
              _ _ _ events (__init__ info env false) (all_allowed events) _);
      [done | intros s1 s2 s3 H12 H23 H1; apply H23, H12, H1 | | done].
    intros e t s _ (Hd & Hr & Hw).
    destruct e; method_cases; try done; congruence. }
  destruct Hinv as (Hd & Hr & Hw). repeat split; try done.
  unfold v2_playbook_on_stats, and_then, _finish_playbook. by rewrite Hr.
Qed.

(** * The further properties on concrete runs *)

Lemma start_task_registers_witness :
  ∃ self', _start_task t1 101%Q
             (after ∅ [(PlaybookStart site_yml, 100%Q); (PlayStart site, 100%Q)])
           = (Returned, self')
    ∧ _task_data self' !! "t1" = Some (TaskData.mk (Some "site") "command" 101%Q).
Proof.
  destruct (start_task_registers t1 101%Q
              (after ∅ [(PlaybookStart site_yml, 100%Q); (PlayStart site, 100%Q)]))
    as (self' & Hrun & Htd & _); [vm_compute; reflexivity|].
  exists self'. split; [exact Hrun | exact Htd].
Defined.

Lemma registered_tasks_persist_witness :
  _task_data (snd (run setup_actions
                     [(PlayStart (Play.mk "db"), 105%Q); (TaskStart t1 true, 106%Q);
                      (RunnerOk result_unknown, 107%Q); (Stats, 110%Q)]
                     (after ∅ started))) !! "t1"
  = Some (TaskData.mk (Some "site") "command" 101%Q).
Proof.
  apply (registered_tasks_persist setup_actions _ (after ∅ started) "t1").
  vm_compute; reflexivity.
Defined.

Lemma written_only_by_stats_witness :
  written (snd (run setup_actions started (__init__ versions ∅ true)))
  = written (__init__ versions ∅ true).
Proof.
  apply (written_only_by_stats setup_actions started (__init__ versions ∅ true)).
  unfold started. repeat constructor.
Defined.

Lemma stats_adds_duration_before_write_witness :
  ∃ r', _finish_playbook 130%Q (after ∅ started)
        = (Returned, set_registry r' (after ∅ started))
    ∧ _metric_playbook_duration r' = 0 + py_int (130 - 100)
    ∧ written (snd (v2_playbook_on_stats 130%Q (after ∅ started)))
      = (_output_file (after ∅ started), r') :: written (after ∅ started).
Proof.
  destruct (stats_adds_duration_before_write 130%Q 100%Q (after ∅ started)
              (info_playbook [("name", "site.yml")] (_register_metrics versions)))
    as (r' & Hrun & Hd & _ & _ & _ & _ & Hw & _); [vm_compute; reflexivity ..|].
  exists r'. repeat split; assumption.
Defined.

Lemma stats_without_playbook_start_raises_witness :
  v2_playbook_on_stats 130%Q
    (snd (run setup_actions [(PlayStart site, 100%Q); (TaskStart t1 false, 101%Q)]
            (__init__ versions ∅ true)))
  = (Raised TypeError,
     snd (run setup_actions [(PlayStart site, 100%Q); (TaskStart t1 false, 101%Q)]
            (__init__ versions ∅ true))).
Proof.
  refine (proj1 (stats_without_playbook_start_raises setup_actions versions ∅
                   [(PlayStart site, 100%Q); (TaskStart t1 false, 101%Q)] 130%Q _)).
  repeat constructor.
Defined.

Lemma result_counted_under_final_status_witness :
  ∃ self' final,
    handle setup_actions (RunnerFailed (result_t1 false) false) 104%Q (after ∅ started)
    = (Returned, self')
    ∧ final_status (RunnerFailed (result_t1 false) false) (after ∅ started) = Some final
    ∧ final ∈ raw_statuses
    ∧ tasks_status_value self' "site" "h1" final
      = tasks_status_value (after ∅ started) "site" "h1" final + 1
    ∧ ∀ st, st ∈ raw_statuses → st ≠ final →
        tasks_status_value self' "site" "h1" st
        = tasks_status_value (after ∅ started) "site" "h1" st.
Proof.
  eapply (result_counted_under_final_status setup_actions
            (RunnerFailed (result_t1 false) false) (result_t1 false) 104%Q
            (after ∅ started) (TaskData.mk (Some "site") "command" 101%Q));
    vm_compute; reflexivity.
Defined.

Lemma missing_changed_entry_is_unchanged_witness :
  ∃ self' r',
    v2_runner_on_ok setup_actions result_t1_plain 104%Q (after env_fail_on_change started)
    = (Returned, self')
    ∧ _registry self' = Some r'
    ∧ tasks_status_value self' "site" "h1" "ok"
      = tasks_status_value (after env_fail_on_change started) "site" "h1" "ok" + 1.
Proof.
  edestruct (missing_changed_entry_is_unchanged setup_actions result_t1_plain 104%Q
               (after env_fail_on_change started)
               (TaskData.mk (Some "site") "command" 101%Q))
    as (self' & r' & Hrun & Hr & Hok & _); [vm_compute; reflexivity ..|].
  exists self', r'. repeat split; assumption.
Defined.


Lemma repeated_results_are_all_counted_witness :
  ∃ self' final,
    run setup_actions
      ((λ now, (RunnerOk (result_t1 true), now)) <$> [102%Q; 103%Q; (209 # 2)%Q])
      (after ∅ started) = (Returned, self')
    ∧ final_status (RunnerOk (result_t1 true)) (after ∅ started) = Some final
    ∧ tasks_status_value self' "site" "h1" final
      = tasks_status_value (after ∅ started) "site" "h1" final + 3.
Proof.
  edestruct (repeated_results_are_all_counted setup_actions (RunnerOk (result_t1 true))
               (result_t1 true) [102%Q; 103%Q; (209 # 2)%Q] (after ∅ started)
               (TaskData.mk (Some "site") "command" 101%Q))
    as (self' & final & Hrun & Hfinal & Hval & _); [vm_compute; reflexivity ..|].
  exists self', final. repeat split; assumption.
Defined.

Lemma duration_added_is_rounded_down_witness :
  ∃ self' added,
    handle setup_actions (RunnerOk (result_t1 false)) (203 # 2)%Q (after ∅ started)
    = (Returned, self')
    ∧ tasks_duration_value self' "site" "h1"
      = tasks_duration_value (after ∅ started) "site" "h1" + added
    ∧ (((203 # 2) - 101 < 1)%Q → added = 0).
Proof.
  edestruct (duration_added_is_rounded_down setup_actions (RunnerOk (result_t1 false))
               (result_t1 false) (203 # 2)%Q (after ∅ started)
               (TaskData.mk (Some "site") "command" 101%Q))
    as (self' & added & Hrun & Hval & _ & _ & Hzero);
    [vm_compute; reflexivity .. | | |].
  - vm_compute. discriminate.
  - vm_compute. discriminate.
  - exists self', added. repeat split; assumption.
Defined.

Lemma playbook_start_records_file_name_witness :
  ∃ self' r' name dir,
    v2_playbook_on_start site_yml 100%Q (__init__ versions ∅ true) = (Returned, self')
    ∧ _registry self' = Some r'
    ∧ _start_time self' = Some 100%Q
    ∧ _metric_info_playbook r' = [("name", name)]
    ∧ has_sep name = false
    ∧ Playbook._file_name site_yml = dir ++ name.
Proof.
  destruct (playbook_start_records_file_name site_yml 100%Q (__init__ versions ∅ true)
              (_register_metrics versions) eq_refl)
    as (self' & r' & name & dir & H1 & H2 & H3 & H4 & H5 & H6 & _).
  exists self', r', name, dir. repeat split; assumption.
Defined.

Lemma single_task_run_registry_witness :
  ∃ self4 r,
    run setup_actions
      [(PlaybookStart site_yml, 100%Q); (PlayStart site, 100%Q);
       (TaskStart t1 false, 101%Q); (RunnerOk result_t1_plain, (207 # 2)%Q)]
      (__init__ versions ∅ true) = (Returned, self4)
    ∧ _registry self4 = Some r
    ∧ written self4 = written (__init__ versions ∅ true)
    ∧ _metric_tasks_status r !! ("site", "h1", "ok") = Some 1.
Proof.
  destruct (single_task_run_registry setup_actions versions site_yml site t1 false h1 ∅
              100%Q 100%Q 101%Q (207 # 2)%Q 130%Q (__init__ versions ∅ true))
    as (self4 & r & r' & Hrun & Hr & Hw & Hok & _).
  - reflexivity.
  - reflexivity.
  - apply (bool_decide_unpack _). vm_compute. exact I.
  - reflexivity.
  - exists self4, r. repeat split; assumption.
Defined.
